(** * Azure Monitor scaler: metric query construction, validation and
      response extraction ([pkg/scalers/azure_monitor.go])

    A shallow embedding of the Go code.  Go strings are byte strings and are
    modelled by [string]; Go's [int], [int64] and [time.Duration] are 64-bit
    two's-complement integers, modelled by [Z] with the wrap-around written
    out; [float64] values are modelled by [spec_float]; a function that can
    panic returns an [outcome]; the clock and the metrics service are reached
    through a small state monad over a [World]. *)

From Stdlib Require Import ZArith List String Ascii Bool Lia.
From Stdlib Require Import SpecFloat QArith Qabs.
Import ListNotations.

Local Open Scope string_scope.
Local Open Scope Z_scope.

(** ** Run-time outcomes *)

(** The two run-time panics the code can raise. *)
Inductive panic : Type :=
| IndexOutOfRange (index len : Z)
| NilDereference.

(** What a Go call does: it returns, or it panics. *)
Inductive outcome (A : Type) : Type :=
| Returns (a : A)
| Panics (p : panic).
Arguments Returns {A} a.
Arguments Panics {A} p.

(** A Go slice value: the nil slice, or a slice header over elements.  Both
    [SliceNil] and [SliceOf []] have length 0; only the first equals [nil]. *)
Inductive slice (A : Type) : Type :=
| SliceNil
| SliceOf (elems : list A).
Arguments SliceNil {A}.
Arguments SliceOf {A} elems.

Definition elements {A} (s : slice A) : list A :=
  match s with
  | SliceNil => []
  | SliceOf l => l
  end.

Definition len {A} (s : slice A) : Z := Z.of_nat (List.length (elements s)).

Definition isNilSlice {A} (s : slice A) : bool :=
  match s with
  | SliceNil => true
  | SliceOf _ => false
  end.

(** The index expression [s[i]]: bounds-checked, panics outside [0, len). *)
Definition index {A} (s : slice A) (i : Z) : outcome A :=
  if (0 <=? i) && (i <? len s) then
    match nth_error (elements s) (Z.to_nat i) with
    | Some a => Returns a
    | None => Panics (IndexOutOfRange i (len s))
    end
  else Panics (IndexOutOfRange i (len s)).

(** The pointer indirection [*p]: panics on the nil pointer. *)
Definition deref {A} (p : option A) : outcome A :=
  match p with
  | Some a => Returns a
  | None => Panics NilDereference
  end.

(** ** Package [strings] *)

Module strings.

Definition byteOf (c : ascii) : Z := Z.of_N (N_of_ascii c).

(** [strings.Split(s, sep)] for a one-byte separator: the substrings
    between the separators, one more than there are separators. *)
Fixpoint Split (s : string) (sep : ascii) : list string :=
  match s with
  | EmptyString => [EmptyString]
  | String c rest =>
      if Ascii.eqb c sep then EmptyString :: Split rest sep
      else match Split rest sep with
           | seg :: segs => String c seg :: segs
           | [] => [String c EmptyString]
           end
  end.

Definition lower (c : ascii) : ascii :=
  let n := byteOf c in
  if (65 <=? n) && (n <=? 90) then ascii_of_N (Z.to_N (n + 32)) else c.

(** [strings.EqualFold(s, t)].  Go compares under Unicode simple case
    folding; the fold orbit of every ASCII letter other than k and s is the
    pair of its two cases, so against the constants this file compares with
    (Average, Total, Maximum, Minimum, Count) equality under folding is
    byte-wise equality up to ASCII case. *)
Fixpoint EqualFold (s t : string) : bool :=
  match s, t with
  | EmptyString, EmptyString => true
  | String a s', String b t' => Ascii.eqb (lower a) (lower b) && EqualFold s' t'
  | _, _ => false
  end.

End strings.

(** ** Package [strconv] *)

Module strconv.

Inductive ErrKind : Type := ErrSyntax | ErrRange.

(** [*strconv.NumError]. *)
Record NumError : Type := mkNumError { Func : string; Num : string; Err : ErrKind }.

Definition isDigit (c : ascii) : bool :=
  (48 <=? strings.byteOf c) && (strings.byteOf c <=? 57).

Definition maxUint64 : Z := 2 ^ 64 - 1.

(** The digit loop of [ParseUint(s, 10, 64)], [n] the value so far. *)
Fixpoint parseDigits (s : string) (n : Z) : Z * option ErrKind :=
  match s with
  | EmptyString => (n, None)
  | String c rest =>
      if negb (isDigit c) then (0, Some ErrSyntax)
      else if maxUint64 / 10 + 1 <=? n then (maxUint64, Some ErrRange)
      else
        let n1 := n * 10 + (strings.byteOf c - 48) in
        if maxUint64 <? n1 then (maxUint64, Some ErrRange)
        else parseDigits rest n1
  end.

Definition ParseUint (s : string) : Z * option ErrKind :=
  match s with
  | EmptyString => (0, Some ErrSyntax)
  | _ => parseDigits s 0
  end.

(** [ParseInt(s, 10, 64)]: an optional sign, then [ParseUint]. *)
Definition ParseInt (s : string) : Z * option ErrKind :=
  match s with
  | EmptyString => (0, Some ErrSyntax)
  | String c rest =>
      let neg := Ascii.eqb c "-" in
      let digits := if Ascii.eqb c "+" || neg then rest else s in
      match ParseUint digits with
      | (_, Some ErrSyntax) => (0, Some ErrSyntax)
      | (un, _) =>
          if negb neg && (2 ^ 63 <=? un) then (2 ^ 63 - 1, Some ErrRange)
          else if neg && (2 ^ 63 <? un) then (- 2 ^ 63, Some ErrRange)
          else (if neg then - un else un, None)
      end
  end.

(** [strconv.Atoi(s)] on a platform whose [int] has 64 bits.  (Its fast
    path for short strings computes the same result as [ParseInt].) *)
Definition Atoi (s : string) : Z * option NumError :=
  match ParseInt s with
  | (n, None) => (n, None)
  | (n, Some k) => (n, Some (mkNumError "Atoi" s k))
  end.

End strconv.

(** ** 64-bit integers *)

(** The value a 64-bit two's-complement register holds after computing [z]. *)
Definition wrap64 (z : Z) : Z := (z + 2 ^ 63) mod 2 ^ 64 - 2 ^ 63.

Definition inInt64 (z : Z) : Prop := - 2 ^ 63 <= z <= 2 ^ 63 - 1.

Definition inInt32 (z : Z) : bool := (- 2 ^ 31 <=? z) && (z <=? 2 ^ 31 - 1).

(** ** Package [time] *)

Module time.

(** A [time.Duration]: nanoseconds, int64. *)
Definition Duration : Type := Z.

Definition Nanosecond : Duration := 1.
Definition Second : Duration := 1000000000.
Definition Minute : Duration := 60 * Second.
Definition Hour : Duration := 60 * Minute.

(** Duration arithmetic is int64 arithmetic. *)
Definition mul (a b : Duration) : Duration := wrap64 (a * b).
Definition add (a b : Duration) : Duration := wrap64 (a + b).
Definition neg (a : Duration) : Duration := wrap64 (- a).

(** A [time.Time], as the instant it denotes: nanoseconds since the Unix
    epoch.  The instants a running clock returns are centuries away from
    the ends of Go's representation, where [Add] is exact. *)
Definition Time : Type := Z.

Definition Add (t : Time) (d : Duration) : Time := t + d.

(** Decimal digits of a natural number, most significant first. *)
Fixpoint digitsFuel (fuel : nat) (n : Z) (acc : string) : string :=
  let acc' := String (ascii_of_N (Z.to_N (48 + n mod 10))) acc in
  match fuel with
  | O => acc'
  | S fuel' => if n <? 10 then acc' else digitsFuel fuel' (n / 10) acc'
  end.

Definition digits (n : Z) : string :=
  digitsFuel (Z.to_nat (Z.log2 n)) n EmptyString.

Fixpoint zeros (k : nat) : string :=
  match k with
  | O => EmptyString
  | S k' => String "0" (zeros k')
  end.

(** [appendInt]: the decimal form of [x], zero-padded to [width], with
    its sign in front. *)
Definition appendInt (x : Z) (width : nat) : string :=
  let d := digits (Z.abs x) in
  let padded := zeros (width - String.length d) ++ d in
  if x <? 0 then String "-" padded else padded.

(** The civil date (year, month, day) of a day number counted from
    1970-01-01, in the proleptic Gregorian calendar. *)
Definition civil (days : Z) : Z * Z * Z :=
  let z := days + 719468 in
  let era := z / 146097 in
  let doe := z mod 146097 in
  let yoe := (doe - doe / 1460 + doe / 36524 - doe / 146096) / 365 in
  let doy := doe - (365 * yoe + yoe / 4 - yoe / 100) in
  let mp := (5 * doy + 2) / 153 in
  let d := doy - (153 * mp + 2) / 5 + 1 in
  let m := if mp <? 10 then mp + 3 else mp - 9 in
  let y := yoe + era * 400 + (if m <=? 2 then 1 else 0) in
  (y, m, d).

(** [t.UTC().Format(time.RFC3339)]: the layout
    [2006-01-02T15:04:05Z07:00] of an instant in UTC, whose zone prints as
    [Z]; the fraction of a second is dropped. *)
Definition FormatRFC3339 (t : Time) : string :=
  let sec := t / Second in
  let '(y, mo, d) := civil (sec / 86400) in
  let sod := sec mod 86400 in
  appendInt y 4 ++ "-" ++ appendInt mo 2 ++ "-" ++ appendInt d 2 ++ "T" ++
  appendInt (sod / 3600) 2 ++ ":" ++ appendInt (sod / 60 mod 60) 2 ++ ":" ++
  appendInt (sod mod 60) 2 ++ "Z".

End time.

(** ** [float64] *)

Module float64.

(** A [float64] value; [S754_finite s m e] denotes [(-1)^s * m * 2^e]. *)
Definition t : Type := spec_float.

(** The conversion [float64(n)] of an integer: to the nearest binary64
    value, ties to even. *)
Definition ofInt (n : Z) : t := binary_normalize 53 1024 n 0 false.

(** The constant [-1] where a [float64] is returned. *)
Definition minusOne : t := Eval vm_compute in ofInt (-1).

(** [math.Round(x)]: the nearest integer, halves away from zero; zeros,
    infinities and NaN are returned as they are.  With [t = Trunc(x)] the
    result is [t + Copysign(1, x)] when [|x - t| >= 0.5] and [t]
    otherwise, keeping the sign of [x]. *)
Definition Round (x : t) : t :=
  match x with
  | S754_finite s m e =>
      if 0 <=? e then x
      else
        let q := 2 ^ (- e) in
        let tr := Zpos m / q in
        let n := if q <=? 2 * (Zpos m mod q) then tr + 1 else tr in
        binary_normalize 53 1024 (if s then - n else n) 0 s
  | _ => x
  end.

(** The integer part of a finite value, truncated toward zero. *)
Definition trunc (x : t) : option Z :=
  match x with
  | S754_zero _ => Some 0
  | S754_finite s m e =>
      let a := if 0 <=? e then Zpos m * 2 ^ e else Zpos m / 2 ^ (- e) in
      Some (if s then - a else a)
  | _ => None
  end.

(** The conversion [int32(x)].  When the truncated value is not an int32
    (or [x] is an infinity or NaN) Go leaves the result to the
    implementation: [unrepresentable] stands for that result. *)
Definition toInt32 (unrepresentable : t -> Z) (x : t) : Z :=
  match trunc x with
  | Some v => if inInt32 v then v else unrepresentable x
  | None => unrepresentable x
  end.

End float64.

(** ** Package [insights]: the metrics response *)

Module insights.

(** [insights.MetricValue]: every aggregate is a pointer, nil when the
    service did not return it. *)
Record MetricValue : Type := mkMetricValue {
  Average : option float64.t;
  Minimum : option float64.t;
  Maximum : option float64.t;
  Total : option float64.t;
  Count : option Z
}.

Record TimeSeriesElement : Type := mkTimeSeriesElement {
  Data : option (slice MetricValue)
}.

Record Metric : Type := mkMetric {
  Timeseries : option (slice TimeSeriesElement)
}.

Record Response : Type := mkResponse {
  Value : option (slice Metric)
}.

(** The [insights.AggregationType] constants. *)
Definition AggregationAverage : string := "Average".
Definition AggregationCount : string := "Count".
Definition AggregationMaximum : string := "Maximum".
Definition AggregationMinimum : string := "Minimum".
Definition AggregationTotal : string := "Total".

(** [insights.MetricsClient], as what [createMetricsClient] puts in it. *)
Record MetricsClient : Type := mkMetricsClient {
  ClientSubscriptionID : string;
  AuthClientID : string;
  AuthClientSecret : string;
  AuthTenantID : string
}.

(** The arguments of [MetricsClient.List] that the caller chooses; the
    others are passed as nil or the empty string. *)
Record ListArgs : Type := mkListArgs {
  resourceURI : string;
  timespan : string;
  metricnames : string;
  aggregation : string;
  filter : string
}.

End insights.

(** ** Errors *)

(** The [error] values of this file, one constructor for each [fmt.Errorf]
    format with the values it is applied to (the aggregation is held as
    given; the messages print it through [strings.ToTitle]).
    - [ValidationError msg]: the constant messages of [validate];
    - [TimespanParseError]: "Errors parsing metricAggregationInterval: %v, %v, %v";
    - [EmptyMetricResponse]: "Got an empty response for metric %s/%s and aggregate type %s";
    - [NoTimeseries]: "Got metric result for %s/%s and aggregate type %s without timeseries";
    - [NoDataPoints]: "... without any metric values";
    - [UnsupportedAggregationType]: "Unsupported aggregation type %s";
    - [NoValueReturned]: "Unable to get value for metric %s/%s with aggregation %s.
      No value returned by Azure Monitor";
    - [MetricError]: "Error getting azure monitor metric %s: %s";
    - [QueryError]: an error returned by the metrics client. *)
Inductive error : Type :=
| ValidationError (msg : string)
| TimespanParseError (herr merr serr : option strconv.NumError)
| EmptyMetricResponse (namespace metric aggregation : string)
| NoTimeseries (namespace metric aggregation : string)
| NoDataPoints (namespace metric aggregation : string)
| UnsupportedAggregationType (aggregation : string)
| NoValueReturned (namespace metric aggregation : string)
| MetricError (metric : string) (cause : error)
| QueryError (msg : string).

Definition isNil {A} (p : option A) : bool :=
  match p with
  | Some _ => false
  | None => true
  end.

(** ** The world outside: clock and metrics service *)

(** What the code cannot decide: the instant the n-th call of [time.Now]
    returns, what the metrics service answers, and what the platform makes
    of a float conversion that does not fit. *)
Record Env : Type := mkEnv {
  clock : nat -> time.Time;
  service : insights.MetricsClient -> insights.ListArgs ->
            insights.Response * option error;
  int32Unrepresentable : float64.t -> Z
}.

(** What a run changes: the clock reads made and the queries sent. *)
Record World : Type := mkWorld {
  clockReads : nat;
  queries : list (insights.MetricsClient * insights.ListArgs)
}.

Definition initial : World := mkWorld 0 [].

(** Computations that may panic and that act on the world. *)
Definition M (A : Type) : Type := World -> outcome A * World.

Definition ret {A} (a : A) : M A := fun w => (Returns a, w).

Definition bind {A B} (c : M A) (k : A -> M B) : M B :=
  fun w =>
    match c w with
    | (Returns a, w') => k a w'
    | (Panics p, w') => (Panics p, w')
    end.

Definition lift {A} (o : outcome A) : M A := fun w => (o, w).

Definition obind {A B} (o : outcome A) (k : A -> outcome B) : outcome B :=
  match o with
  | Returns a => k a
  | Panics p => Panics p
  end.

Notation "x <- c ;; k" := (bind c (fun x => k))
  (at level 61, c at next level, right associativity).
Notation "' pat <- c ;; k" := (bind c (fun x => match x with pat => k end))
  (at level 61, pat pattern, c at next level, right associativity).
Notation "x <~ c ;; k" := (obind c (fun x => k))
  (at level 61, c at next level, right associativity).
Notation "' pat <~ c ;; k" := (obind c (fun x => match x with pat => k end))
  (at level 61, pat pattern, c at next level, right associativity).

(** ** [azure_monitor.go] *)

(** Modelled from the spec: the struct [azureMonitorMetadata] is declared
    outside this file; these are the fields the code reads (spec, inbound
    configuration). *)
Record azureMonitorMetadata : Type := mkMetadata {
  name : string;
  subscriptionID : string;
  resourceGroupName : string;
  resourceURI : string;
  aggregationType : string;
  aggregationInterval : string;
  filter : string;
  clientID : string;
  clientPassword : string;
  tenantID : string
}.

Record azureExternalMetricRequest : Type := mkRequest {
  MetricName : string;
  SubscriptionID : string;
  ResourceName : string;
  ResourceProviderNamespace : string;
  ResourceType : string;
  Aggregation : string;
  Timespan : string;
  Filter : string;
  ResourceGroup : string
}.

Definition isEmpty (s : string) : bool :=
  match s with
  | EmptyString => true
  | String _ _ => false
  end.

(** [validate]: nil ([None]) when the three required fields are there. *)
Definition validate (amr : azureExternalMetricRequest) : option error :=
  if isEmpty (MetricName amr) then
    Some (ValidationError "metricName is required")
  else if isEmpty (ResourceGroup amr) then
    Some (ValidationError "resourceGroup is required")
  else if isEmpty (SubscriptionID amr) then
    Some (ValidationError
            "subscriptionID is required. set a default or pass via label selectors")
  else None.

Definition metricResourceURI (amr : azureExternalMetricRequest) : string :=
  "/subscriptions/" ++ SubscriptionID amr ++
  "/resourceGroups/" ++ ResourceGroup amr ++
  "/providers/" ++ ResourceProviderNamespace amr ++
  "/" ++ ResourceType amr ++
  "/" ++ ResourceName amr.

(** [a && b] where evaluating [b] may panic: [b] is evaluated only when [a]
    holds. *)
Definition andThen (a : bool) (b : outcome bool) : outcome bool :=
  if a then b else Returns false.

(** [data[len(data)-1]]. *)
Definition lastPoint (data : slice insights.MetricValue) : outcome insights.MetricValue :=
  index data (len data - 1).

Definition verifyAggregationTypeIsSupported
    (aggregationType : string) (data : slice insights.MetricValue)
  : outcome (option float64.t * option error) :=
  let present {A} (field : insights.MetricValue -> option A) : outcome bool :=
    p <~ lastPoint data ;; Returns (negb (isNil (field p))) in
  c <~ andThen (strings.EqualFold insights.AggregationAverage aggregationType)
               (present insights.Average) ;;
  if c then p <~ lastPoint data ;; Returns (insights.Average p, None) else
  c <~ andThen (strings.EqualFold insights.AggregationTotal aggregationType)
               (present insights.Total) ;;
  if c then p <~ lastPoint data ;; Returns (insights.Total p, None) else
  c <~ andThen (strings.EqualFold insights.AggregationMaximum aggregationType)
               (present insights.Maximum) ;;
  if c then p <~ lastPoint data ;; Returns (insights.Maximum p, None) else
  c <~ andThen (strings.EqualFold insights.AggregationMinimum aggregationType)
               (present insights.Minimum) ;;
  if c then p <~ lastPoint data ;; Returns (insights.Minimum p, None) else
  c <~ andThen (strings.EqualFold insights.AggregationCount aggregationType)
               (present insights.Count) ;;
  if c then
    p <~ lastPoint data ;;
    count <~ deref (insights.Count p) ;;
    Returns (Some (float64.ofInt count), None)
  else Returns (None, Some (UnsupportedAggregationType aggregationType)).

Definition extractValue
    (azMetricRequest : azureExternalMetricRequest) (metricResult : insights.Response)
  : outcome (float64.t * option error) :=
  let ns := ResourceProviderNamespace azMetricRequest in
  let metric := MetricName azMetricRequest in
  let agg := Aggregation azMetricRequest in
  metricVals <~ deref (insights.Value metricResult) ;;
  if len metricVals =? 0 then
    Returns (float64.minusOne, Some (EmptyMetricResponse ns metric agg))
  else
    m0 <~ index metricVals 0 ;;
    timeseries <~ deref (insights.Timeseries m0) ;;
    if isNilSlice timeseries then
      Returns (float64.minusOne, Some (NoTimeseries ns metric agg))
    else
      ts0 <~ index timeseries 0 ;;
      data <~ deref (insights.Data ts0) ;;
      if isNilSlice data then
        Returns (float64.minusOne, Some (NoDataPoints ns metric agg))
      else
        '(valuePtr, err) <~ verifyAggregationTypeIsSupported agg data ;;
        if negb (isNil err) then
          Returns (float64.minusOne, Some (NoValueReturned ns metric agg))
        else
          v <~ deref valuePtr ;;
          Returns (v, None).

(** The decomposition of the resource identifier in [createMetricsRequest]:
    the split at "/" and the three index expressions that read it. *)
Definition decomposeResourceURI (uri : string) : outcome (string * string * string) :=
  let resourceInfo := SliceOf (strings.Split uri "/") in
  ns <~ index resourceInfo 0 ;;
  ty <~ index resourceInfo 1 ;;
  nm <~ index resourceInfo 2 ;;
  Returns (ns, ty, nm).

Definition createMetricsClient (metadata : option azureMonitorMetadata)
  : outcome insights.MetricsClient :=
  md <~ deref metadata ;;
  Returns (insights.mkMetricsClient (subscriptionID md) (clientID md)
             (clientPassword md) (tenantID md)).

Section Pipeline.

Variable env : Env.

(** [time.Now()]. *)
Definition Now : M time.Time :=
  fun w => (Returns (clock env (clockReads w)),
            mkWorld (S (clockReads w)) (queries w)).

(** [client.List(...)]: the query is sent, the service answers. *)
Definition List (client : insights.MetricsClient) (args : insights.ListArgs)
  : M (insights.Response * option error) :=
  fun w => (Returns (service env client args),
            mkWorld (clockReads w) (queries w ++ [(client, args)])).

Definition formatTimeSpan (timeSpan : string) : M (string * option error) :=
  t1 <- Now ;;
  let endtime := time.FormatRFC3339 t1 in
  t2 <- Now ;;
  let starttime := time.FormatRFC3339 (time.Add t2 (- (5 * time.Minute))) in
  if negb (isEmpty timeSpan) then
    let aggregationInterval := SliceOf (strings.Split timeSpan ":") in
    h <- lift (index aggregationInterval 0) ;;
    let '(hours, herr) := strconv.Atoi h in
    m <- lift (index aggregationInterval 1) ;;
    let '(minutes, merr) := strconv.Atoi m in
    s <- lift (index aggregationInterval 2) ;;
    let '(seconds, serr) := strconv.Atoi s in
    if negb (isNil herr) || negb (isNil merr) || negb (isNil serr) then
      ret ("", Some (TimespanParseError herr merr serr))
    else
      t3 <- Now ;;
      let d := time.add (time.add (time.mul hours time.Hour)
                                  (time.mul minutes time.Minute))
                        (time.mul seconds time.Second) in
      let starttime := time.FormatRFC3339 (time.Add t3 (time.neg d)) in
      ret (starttime ++ "/" ++ endtime, None)
  else ret (starttime ++ "/" ++ endtime, None).

Definition createMetricsRequest (metadata : option azureMonitorMetadata)
  : M (option azureExternalMetricRequest * option error) :=
  md <- lift (deref metadata) ;;
  '(ns, ty, nm) <- lift (decomposeResourceURI (resourceURI md)) ;;
  '(timespan, err) <- formatTimeSpan (aggregationInterval md) ;;
  if negb (isNil err) then ret (None, err)
  else
    ret (Some {| MetricName := name md;
                 SubscriptionID := subscriptionID md;
                 ResourceName := nm;
                 ResourceProviderNamespace := ns;
                 ResourceType := ty;
                 Aggregation := aggregationType md;
                 Timespan := timespan;
                 Filter := filter md;
                 ResourceGroup := resourceGroupName md |}, None).

Definition getAzureMetric
    (client : insights.MetricsClient) (azMetricRequest : azureExternalMetricRequest)
  : M (float64.t * option error) :=
  let err := validate azMetricRequest in
  if negb (isNil err) then ret (float64.minusOne, err)
  else
    let uri := metricResourceURI azMetricRequest in
    '(metricResult, err) <-
      List client (insights.mkListArgs uri (Timespan azMetricRequest)
                     (MetricName azMetricRequest) (Aggregation azMetricRequest)
                     (Filter azMetricRequest)) ;;
    if negb (isNil err) then ret (float64.minusOne, err)
    else lift (extractValue azMetricRequest metricResult).

Definition executeRequest
    (client : insights.MetricsClient) (request : option azureExternalMetricRequest)
  : M (Z * option error) :=
  req <- lift (deref request) ;;
  '(metricResponse, err) <- getAzureMetric client req ;;
  match err with
  | Some e => ret (-1, Some (MetricError (MetricName req) e))
  | None =>
      let metricValue :=
        float64.toInt32 (int32Unrepresentable env) (float64.Round metricResponse) in
      ret (metricValue, None)
  end.

Definition GetAzureMetricValue (metricMetadata : option azureMonitorMetadata)
  : M (Z * option error) :=
  client <- lift (createMetricsClient metricMetadata) ;;
  '(requestPtr, err) <- createMetricsRequest metricMetadata ;;
  if negb (isNil err) then ret (-1, err)
  else executeRequest client requestPtr.

End Pipeline.

(** ** Sample inputs *)

Module Sample.

(** 2019-11-01T00:00:00Z. *)
Definition midnight : time.Time := 1572566400 * time.Second.

Definition frozenClock : nat -> time.Time := fun _ => midnight.

(** A clock that advances 3 ms between two reads. *)
Definition tickingClock : nat -> time.Time :=
  fun n => midnight + Z.of_nat n * 3000000.

Definition point (avg : option float64.t) (count : option Z) : insights.MetricValue :=
  insights.mkMetricValue avg None None None count.

Definition responseOf (data : slice insights.MetricValue) : insights.Response :=
  insights.mkResponse
    (Some (SliceOf [insights.mkMetric
                      (Some (SliceOf [insights.mkTimeSeriesElement (Some data)]))])).

Definition envOf (answer : insights.Response * option error) : Env :=
  mkEnv frozenClock (fun _ _ => answer) (fun _ => 0).

(** The binary64 values nearest to 4.4, 4.5, 12.6 and their opposites. *)
Definition f4_4 : float64.t := S754_finite false 4953959590107546 (-50).
Definition f12_6 : float64.t := S754_finite false 7093169413108531 (-49).
Definition f7 : float64.t := S754_finite false 7881299347898368 (-50).

Definition metadata (uri interval agg : string) : azureMonitorMetadata :=
  mkMetadata "Length" "s1" "g1" uri agg interval "" "id" "secret" "tenant".

Definition request (agg : string) : azureExternalMetricRequest :=
  mkRequest "Length" "s1" "q1" "Microsoft.Storage" "queueServices" agg
            "2019-10-31T23:55:00Z/2019-11-01T00:00:00Z" "" "g1".

End Sample.

(** ** Vocabulary of the statements *)

(** [hasByte c s]: the byte [c] occurs in [s]. *)
Fixpoint hasByte (c : ascii) (s : string) : bool :=
  match s with
  | EmptyString => false
  | String a rest => Ascii.eqb a c || hasByte c rest
  end.

(** The segments put back together, [sep] between neighbours. *)
Fixpoint Join (segs : list string) (sep : ascii) : string :=
  match segs with
  | [] => EmptyString
  | [seg] => seg
  | seg :: rest => seg ++ String sep (Join rest sep)
  end.

(** The three required fields of a request, in the order they are checked. *)
Inductive RequiredField : Type := FieldMetricName | FieldResourceGroup | FieldSubscriptionID.

Definition fieldValue (f : RequiredField) (amr : azureExternalMetricRequest) : string :=
  match f with
  | FieldMetricName => MetricName amr
  | FieldResourceGroup => ResourceGroup amr
  | FieldSubscriptionID => SubscriptionID amr
  end.

Definition fieldMessage (f : RequiredField) : string :=
  match f with
  | FieldMetricName => "metricName is required"
  | FieldResourceGroup => "resourceGroup is required"
  | FieldSubscriptionID =>
      "subscriptionID is required. set a default or pass via label selectors"
  end.

(** The fields checked before [f]. *)
Definition checkedBefore (f : RequiredField) : list RequiredField :=
  match f with
  | FieldMetricName => []
  | FieldResourceGroup => [FieldMetricName]
  | FieldSubscriptionID => [FieldMetricName; FieldResourceGroup]
  end.

(** The string with its ASCII upper-case letters lowered. *)
Fixpoint toLower (s : string) : string :=
  match s with
  | EmptyString => EmptyString
  | String c rest => String (strings.lower c) (toLower rest)
  end.

(** The five aggregation modes. *)
Inductive Mode : Type := Average | Total | Maximum | Minimum | Count.

Definition modeName (m : Mode) : string :=
  match m with
  | Average => insights.AggregationAverage
  | Total => insights.AggregationTotal
  | Maximum => insights.AggregationMaximum
  | Minimum => insights.AggregationMinimum
  | Count => insights.AggregationCount
  end.

Definition allModes : list Mode := [Average; Total; Maximum; Minimum; Count].

(** The mode a requested aggregation names, letter case apart. *)
Definition modeOf (aggregationType : string) : option Mode :=
  find (fun m => String.eqb (toLower (modeName m)) (toLower aggregationType)) allModes.

(** The value a data point holds for a mode: the float field of that name,
    or the integer count converted to a float. *)
Definition fieldOf (m : Mode) (p : insights.MetricValue) : option float64.t :=
  match m with
  | Average => insights.Average p
  | Total => insights.Total p
  | Maximum => insights.Maximum p
  | Minimum => insights.Minimum p
  | Count => option_map float64.ofInt (insights.Count p)
  end.

(** What the requested aggregation selects in a data point. *)
Definition selected (aggregationType : string) (p : insights.MetricValue) : option float64.t :=
  match modeOf aggregationType with
  | Some m => fieldOf m p
  | None => None
  end.

(** A response whose first result's first series ends with the point [p]. *)
Definition responseEndingWith
    (earlier : list insights.MetricValue) (p : insights.MetricValue)
    (otherSeries : list insights.TimeSeriesElement) (otherResults : list insights.Metric)
  : insights.Response :=
  insights.mkResponse
    (Some (SliceOf
       (insights.mkMetric
          (Some (SliceOf
             (insights.mkTimeSeriesElement (Some (SliceOf (earlier ++ [p])))
              :: otherSeries)))
        :: otherResults))).

(** Two decimal digits; four decimal digits. *)
Definition twoDigits (s : string) : bool :=
  match s with
  | String a (String b EmptyString) => strconv.isDigit a && strconv.isDigit b
  | _ => false
  end.

Definition fourDigits (s : string) : bool :=
  match s with
  | String a (String b rest) => strconv.isDigit a && strconv.isDigit b && twoDigits rest
  | _ => false
  end.

(** The RFC 3339 shape of a UTC timestamp: [dddd-dd-ddTdd:dd:ddZ]. *)
Definition isRFC3339UTC (s : string) : bool :=
  fourDigits (substring 0 4 s) && String.eqb (substring 4 1 s) "-" &&
  twoDigits (substring 5 2 s) && String.eqb (substring 7 1 s) "-" &&
  twoDigits (substring 8 2 s) && String.eqb (substring 10 1 s) "T" &&
  twoDigits (substring 11 2 s) && String.eqb (substring 13 1 s) ":" &&
  twoDigits (substring 14 2 s) && String.eqb (substring 16 1 s) ":" &&
  twoDigits (substring 17 2 s) && String.eqb (substring 19 1 s) "Z" &&
  Nat.eqb (String.length s) 20.

(** The instants from 0000-03-01T00:00:00Z up to 9600-03-01T00:00:00Z. *)
Definition inCalendarRange (t : time.Time) : Prop :=
  - 719468 * 86400 * time.Second <= t < (24 * 146097 - 719468) * 86400 * time.Second.

(** A non-empty string of decimal digits. *)
Definition isNatNumeral (s : string) : bool :=
  negb (isEmpty s) && forallb strconv.isDigit (list_ascii_of_string s).

(** The timespan string of a window: its two instants, start first. *)
Definition window (start finish : time.Time) : string :=
  time.FormatRFC3339 start ++ "/" ++ time.FormatRFC3339 finish.



(** The request [createMetricsRequest] builds from a configuration, the
    three segments of its resource identifier and the timespan. *)
Definition requestOf (md : azureMonitorMetadata) (ns ty nm timespan : string)
  : azureExternalMetricRequest :=
  {| MetricName := name md;
     SubscriptionID := subscriptionID md;
     ResourceName := nm;
     ResourceProviderNamespace := ns;
     ResourceType := ty;
     Aggregation := aggregationType md;
     Timespan := timespan;
     Filter := filter md;
     ResourceGroup := resourceGroupName md |}.

(** The client a configuration gives. *)
Definition clientOf (md : azureMonitorMetadata) : insights.MetricsClient :=
  insights.mkMetricsClient (subscriptionID md) (clientID md) (clientPassword md)
    (tenantID md).

(** The arguments [getAzureMetric] passes to the metrics client. *)
Definition argsOf (req : azureExternalMetricRequest) : insights.ListArgs :=
  insights.mkListArgs (metricResourceURI req) (Timespan req) (MetricName req)
    (Aggregation req) (Filter req).

(** None of the five fields that make the resource URI holds a slash. *)
Definition slashFree (amr : azureExternalMetricRequest) : Prop :=
  hasByte "/" (SubscriptionID amr) = false /\
  hasByte "/" (ResourceGroup amr) = false /\
  hasByte "/" (ResourceProviderNamespace amr) = false /\
  hasByte "/" (ResourceType amr) = false /\
  hasByte "/" (ResourceName amr) = false.

(** The errors [extractValue] makes, each with the namespace, metric name
    and aggregation of the request. *)
Definition extractionError (req : azureExternalMetricRequest) (e : error) : Prop :=
  let ns := ResourceProviderNamespace req in
  let metric := MetricName req in
  let agg := Aggregation req in
  e = EmptyMetricResponse ns metric agg \/ e = NoTimeseries ns metric agg \/
  e = NoDataPoints ns metric agg \/ e = NoValueReturned ns metric agg.

(** The ways in which the extraction of a value from an answer fails with
    an error: no result, a nil time-series slice in the first result, a nil
    data slice in its first series, no value for the requested aggregation in
    the last data point, or an aggregation that names no mode against a
    series without points. *)
Inductive extractionFailure (req : azureExternalMetricRequest)
  : insights.Response -> error -> Prop :=
| FailsEmpty (results : slice insights.Metric) :
    len results = 0 ->
    extractionFailure req (insights.mkResponse (Some results))
      (EmptyMetricResponse (ResourceProviderNamespace req) (MetricName req)
         (Aggregation req))
| FailsNoTimeseries (otherResults : list insights.Metric) :
    extractionFailure req
      (insights.mkResponse
         (Some (SliceOf (insights.mkMetric (Some SliceNil) :: otherResults))))
      (NoTimeseries (ResourceProviderNamespace req) (MetricName req) (Aggregation req))
| FailsNoDataPoints (otherSeries : list insights.TimeSeriesElement)
                    (otherResults : list insights.Metric) :
    extractionFailure req
      (insights.mkResponse
         (Some (SliceOf
            (insights.mkMetric
               (Some (SliceOf (insights.mkTimeSeriesElement (Some SliceNil) :: otherSeries)))
             :: otherResults))))
      (NoDataPoints (ResourceProviderNamespace req) (MetricName req) (Aggregation req))
| FailsNoValue (earlier : list insights.MetricValue) (p : insights.MetricValue)
               (otherSeries : list insights.TimeSeriesElement)
               (otherResults : list insights.Metric) :
    selected (Aggregation req) p = None ->
    extractionFailure req (responseEndingWith earlier p otherSeries otherResults)
      (NoValueReturned (ResourceProviderNamespace req) (MetricName req) (Aggregation req))
| FailsUnknownMode (otherSeries : list insights.TimeSeriesElement)
                   (otherResults : list insights.Metric) :
    modeOf (Aggregation req) = None ->
    extractionFailure req
      (insights.mkResponse
         (Some (SliceOf
            (insights.mkMetric
               (Some (SliceOf
                  (insights.mkTimeSeriesElement (Some (SliceOf [])) :: otherSeries)))
             :: otherResults))))
      (NoValueReturned (ResourceProviderNamespace req) (MetricName req) (Aggregation req)).

(** * Properties *)

(** ** Strings *)

Lemma isEmpty_true (s : string) : isEmpty s = true <-> s = "".
Proof. destruct s; simpl; split; congruence. Qed.

Lemma isEmpty_false (s : string) : isEmpty s = false <-> s <> "".
Proof. destruct s; simpl; split; congruence. Qed.

Lemma Split_not_nil (s : string) (sep : ascii) : strings.Split s sep <> [].
Proof.
  destruct s as [|c rest]; simpl; [discriminate|].
  destruct (Ascii.eqb c sep); [discriminate|].
  destruct (strings.Split rest sep); discriminate.
Qed.

(** A segment without separator, followed by a separator, is split off. *)
Lemma Split_segment (a rest : string) (sep : ascii) :
  hasByte sep a = false ->
  strings.Split (a ++ String sep rest) sep = a :: strings.Split rest sep.
Proof.
  induction a as [|c a IH]; simpl; intros H.
  - now rewrite Ascii.eqb_refl.
  - apply orb_false_iff in H as [Hc Ha].
    rewrite Hc, (IH Ha). reflexivity.
Qed.

Lemma Split_single (a : string) (sep : ascii) :
  hasByte sep a = false -> strings.Split a sep = [a].
Proof.
  induction a as [|c a IH]; simpl; intros H; [reflexivity|].
  apply orb_false_iff in H as [Hc Ha].
  rewrite Hc, (IH Ha). reflexivity.
Qed.

(** No segment of a split holds the separator. *)
Lemma Split_segments_clean (s : string) (sep : ascii) :
  Forall (fun seg => hasByte sep seg = false) (strings.Split s sep).
Proof.
  induction s as [|c s IH]; simpl.
  - constructor; [reflexivity | constructor].
  - destruct (Ascii.eqb c sep) eqn:E.
    + constructor; [reflexivity | exact IH].
    + destruct (strings.Split s sep) as [|seg segs].
      * constructor; [simpl; now rewrite E | constructor].
      * inversion IH; subst. constructor; [simpl; now rewrite E | assumption].
Qed.

(** Joining the segments of a split gives the string back. *)
Lemma Join_Split (s : string) (sep : ascii) : Join (strings.Split s sep) sep = s.
Proof.
  induction s as [|c s IH]; [reflexivity|].
  simpl. destruct (Ascii.eqb c sep) eqn:E.
  - apply Ascii.eqb_eq in E; subst c.
    pose proof (Split_not_nil s sep) as Hne.
    destruct (strings.Split s sep) as [|seg segs]; [congruence|].
    change (Join ("" :: seg :: segs) sep) with (String sep (Join (seg :: segs) sep)).
    now rewrite IH.
  - pose proof (Split_not_nil s sep) as Hne.
    destruct (strings.Split s sep) as [|seg segs]; [congruence|].
    destruct segs as [|seg' segs]; simpl in *; now rewrite <- IH.
Qed.

Lemma index_nth {A} (l : list A) (i : nat) (a : A) :
  nth_error l i = Some a -> index (SliceOf l) (Z.of_nat i) = Returns a.
Proof.
  intros H. unfold index, len; simpl.
  assert (Hlt : (i < List.length l)%nat) by (apply nth_error_Some; congruence).
  replace ((0 <=? Z.of_nat i) && (Z.of_nat i <? Z.of_nat (List.length l))) with true
    by (symmetry; apply andb_true_iff; split; [apply Z.leb_le | apply Z.ltb_lt]; lia).
  now rewrite Nat2Z.id, H.
Qed.

Lemma index_at {A} (l : list A) (i : Z) (a : A) :
  (0 <=? i) = true -> nth_error l (Z.to_nat i) = Some a ->
  index (SliceOf l) i = Returns a.
Proof.
  intros Hi H. apply Z.leb_le in Hi.
  rewrite <- (Z2Nat.id i Hi). now apply index_nth.
Qed.

Lemma index_head {A} (a : A) (l : list A) : index (SliceOf (a :: l)) 0 = Returns a.
Proof. reflexivity. Qed.

Lemma len_cons {A} (a : A) (l : list A) : (len (SliceOf (a :: l)) =? 0) = false.
Proof. reflexivity. Qed.

Lemma index_beyond {A} (s : slice A) (i : Z) :
  len s <= i -> index s i = Panics (IndexOutOfRange i (len s)).
Proof.
  intros H. unfold index.
  replace (i <? len s) with false by (symmetry; apply Z.ltb_ge; exact H).
  now rewrite andb_false_r.
Qed.

Lemma index_negative {A} (s : slice A) (i : Z) :
  i < 0 -> index s i = Panics (IndexOutOfRange i (len s)).
Proof.
  intros H. unfold index.
  replace (0 <=? i) with false by (symmetry; apply Z.leb_gt; exact H).
  reflexivity.
Qed.

(** ** Decomposition of the resource identifier *)

Lemma decompose_first_three (ns ty nm : string) (rest : list string) (uri : string) :
  strings.Split uri "/" = ns :: ty :: nm :: rest ->
  decomposeResourceURI uri = Returns (ns, ty, nm).
Proof.
  intros H. unfold decomposeResourceURI. rewrite H.
  rewrite (index_nth _ 0 ns), (index_nth _ 1 ty), (index_nth _ 2 nm); reflexivity.
Qed.

(** An identifier "ns/type/name" of exactly three segments is decomposed
    into (ns, type, name). *)
Lemma decompose_three_segments (ns ty nm : string) :
  hasByte "/" ns = false -> hasByte "/" ty = false -> hasByte "/" nm = false ->
  decomposeResourceURI (ns ++ "/" ++ ty ++ "/" ++ nm) = Returns (ns, ty, nm).
Proof.
  intros Hns Hty Hnm. apply decompose_first_three with (rest := []).
  simpl. rewrite (Split_segment _ _ _ Hns), (Split_segment _ _ _ Hty).
  now rewrite (Split_single _ _ Hnm).
Qed.

(** With fewer than three segments the third (or second) index expression
    is out of range and the decomposition panics. *)
Lemma decompose_too_short (uri : string) :
  (List.length (strings.Split uri "/") < 3)%nat ->
  exists i, decomposeResourceURI uri =
            Panics (IndexOutOfRange i (Z.of_nat (List.length (strings.Split uri "/")))).
Proof.
  intros H. unfold decomposeResourceURI.
  pose proof (Split_not_nil uri "/") as Hne.
  destruct (strings.Split uri "/") as [|a [|b [|c rest]]]; simpl in H; try lia.
  - congruence.
  - exists 1. reflexivity.
  - exists 2. reflexivity.
Qed.

(** With the default interval and a well-formed identifier the request is
    built, whatever the world. *)
Lemma createMetricsRequest_default_interval
    (env : Env) (md : azureMonitorMetadata) (ns ty nm : string) (w : World) :
  decomposeResourceURI (resourceURI md) = Returns (ns, ty, nm) ->
  aggregationInterval md = "" ->
  exists req w',
    createMetricsRequest env (Some md) w = (Returns (Some req, None), w') /\
    ResourceProviderNamespace req = ns /\ ResourceType req = ty /\
    ResourceName req = nm /\ queries w' = queries w.
Proof.
  intros Hd Hi. unfold createMetricsRequest, bind, lift. simpl deref. cbv iota beta.
  rewrite Hd, Hi. cbv iota beta.
  eexists. eexists. split; [reflexivity|]. simpl. auto.
Qed.

(** C2 (the code at the failing input): an identifier of two segments makes
    the decomposition read index 2 of a split of length 2; the run panics
    and no MalformedResourceIdentifier error is returned. *)
Theorem decompose_two_segments_panics :
  decomposeResourceURI "Microsoft.Storage/queueServices" = Panics (IndexOutOfRange 2 2) /\
  forall (env : Env) (w : World),
    GetAzureMetricValue env
      (Some (Sample.metadata "Microsoft.Storage/queueServices" "" "Average")) w
    = (Panics (IndexOutOfRange 2 2), w).
Proof.
  split; [reflexivity|]. intros env w. reflexivity.
Qed.

(** C10: an identifier of more than three segments is decomposed without
    failure: it reads ns/type/name/rest, namespace, type and name are its
    first three segments, and the request is built from them, the rest being
    dropped. *)
Theorem extra_segments_ignored (uri : string) :
  (3 < List.length (strings.Split uri "/"))%nat ->
  exists ns ty nm rest,
    uri = ns ++ "/" ++ ty ++ "/" ++ nm ++ "/" ++ rest /\
    hasByte "/" ns = false /\ hasByte "/" ty = false /\ hasByte "/" nm = false /\
    decomposeResourceURI uri = Returns (ns, ty, nm) /\
    forall (env : Env) (md : azureMonitorMetadata) (w : World),
      resourceURI md = uri -> aggregationInterval md = "" ->
      exists req w',
        createMetricsRequest env (Some md) w = (Returns (Some req, None), w') /\
        ResourceProviderNamespace req = ns /\ ResourceType req = ty /\
        ResourceName req = nm.
Proof.
  intros Hlen.
  pose proof (Join_Split uri "/") as Hjoin.
  pose proof (Split_segments_clean uri "/") as Hclean.
  destruct (strings.Split uri "/") as [|ns [|ty [|nm [|r rest]]]] eqn:Hsplit;
    simpl in Hlen; try lia.
  exists ns, ty, nm, (Join (r :: rest) "/").
  apply Forall_cons_iff in Hclean as [Hns Hc1].
  apply Forall_cons_iff in Hc1 as [Hty Hc2].
  apply Forall_cons_iff in Hc2 as [Hnm _].
  assert (Hd : decomposeResourceURI uri = Returns (ns, ty, nm))
    by (apply decompose_first_three with (rest := r :: rest); exact Hsplit).
  repeat split; try assumption.
  - symmetry. exact Hjoin.
  - intros env md w Hu Hi. rewrite <- Hu in Hd.
    destruct (createMetricsRequest_default_interval env md ns ty nm w Hd Hi)
      as (req & w' & H1 & H2 & H3 & H4 & _).
    exists req, w'. auto.
Qed.

Lemma extra_segments_ignored_witness :
  exists ns ty nm rest,
    "Microsoft.Storage/queueServices/q1/extra/more" =
      ns ++ "/" ++ ty ++ "/" ++ nm ++ "/" ++ rest /\
    hasByte "/" ns = false /\ hasByte "/" ty = false /\ hasByte "/" nm = false /\
    decomposeResourceURI "Microsoft.Storage/queueServices/q1/extra/more" =
      Returns (ns, ty, nm) /\
    forall (env : Env) (md : azureMonitorMetadata) (w : World),
      resourceURI md = "Microsoft.Storage/queueServices/q1/extra/more" ->
      aggregationInterval md = "" ->
      exists req w',
        createMetricsRequest env (Some md) w = (Returns (Some req, None), w') /\
        ResourceProviderNamespace req = ns /\ ResourceType req = ty /\
        ResourceName req = nm.
Proof.
  apply (extra_segments_ignored "Microsoft.Storage/queueServices/q1/extra/more").
  vm_compute. lia.
Defined.

(** ** Validation *)

(** C6: [validate] checks metricName, then resourceGroup, then
    subscriptionID, and reports one missing field, the first empty one in
    that order, with its message (for subscriptionID the message with the
    hint); it reports nothing exactly when none is empty. *)
Theorem validate_reports_first_missing (amr : azureExternalMetricRequest) :
  (forall f : RequiredField,
      fieldValue f amr = "" ->
      (forall g, In g (checkedBefore f) -> fieldValue g amr <> "") ->
      validate amr = Some (ValidationError (fieldMessage f))) /\
  ((forall f : RequiredField, fieldValue f amr <> "") -> validate amr = None) /\
  (MetricName amr = "" -> ResourceGroup amr = "" -> SubscriptionID amr = "" ->
   validate amr = Some (ValidationError "metricName is required")).
Proof.
  unfold validate. repeat split.
  - intros f Hf Hbefore. destruct f; simpl in *.
    + rewrite Hf. reflexivity.
    + pose proof (Hbefore FieldMetricName (or_introl eq_refl)) as H1. simpl in H1.
      apply isEmpty_false in H1. rewrite H1, Hf. reflexivity.
    + pose proof (Hbefore FieldMetricName (or_introl eq_refl)) as H1.
      pose proof (Hbefore FieldResourceGroup (or_intror (or_introl eq_refl))) as H2.
      simpl in H1, H2. apply isEmpty_false in H1, H2.
      rewrite H1, H2, Hf. reflexivity.
  - intros H.
    pose proof (H FieldMetricName) as H1.
    pose proof (H FieldResourceGroup) as H2.
    pose proof (H FieldSubscriptionID) as H3.
    simpl in H1, H2, H3. apply isEmpty_false in H1, H2, H3.
    now rewrite H1, H2, H3.
  - intros H _ _. now rewrite H.
Qed.

Lemma validate_reports_first_missing_witness :
  validate (mkRequest "" "" "q1" "Microsoft.Storage" "queueServices" "Average" "" "" "")
  = Some (ValidationError "metricName is required").
Proof.
  apply (proj2 (proj2 (validate_reports_first_missing
           (mkRequest "" "" "q1" "Microsoft.Storage" "queueServices" "Average" "" "" ""))));
    reflexivity.
Defined.

(** ** Selection of the aggregate *)

Lemma EqualFold_toLower (s t : string) :
  strings.EqualFold s t = true <-> toLower s = toLower t.
Proof.
  revert t. induction s as [|a s IH]; intros [|b t]; simpl; split; try congruence.
  - intros H. apply andb_true_iff in H as [Hc Hr].
    apply Ascii.eqb_eq in Hc. apply IH in Hr. congruence.
  - intros H. injection H as Hc Hr.
    apply andb_true_iff. split; [now apply Ascii.eqb_eq | now apply IH].
Qed.

Lemma EqualFold_eqb (s t : string) :
  strings.EqualFold s t = String.eqb (toLower s) (toLower t).
Proof.
  destruct (strings.EqualFold s t) eqn:E.
  - symmetry. apply String.eqb_eq. now apply EqualFold_toLower.
  - symmetry. apply String.eqb_neq. intros H.
    apply EqualFold_toLower in H. congruence.
Qed.

(** Matching is blind to letter case. *)
Lemma modeOf_case_insensitive (a b : string) :
  toLower a = toLower b -> modeOf a = modeOf b.
Proof. unfold modeOf. intros H. now rewrite H. Qed.

Lemma modeOf_Some (a : string) (m : Mode) :
  modeOf a = Some m <-> toLower a = toLower (modeName m).
Proof.
  unfold modeOf, allModes, find.
  split.
  - repeat match goal with
           | |- context [String.eqb (toLower (modeName ?k)) ?y] =>
               destruct (String.eqb (toLower (modeName k)) y) eqn:?
           end;
      intros H; inversion H; subst;
      match goal with
      | E : String.eqb _ _ = true |- _ => apply String.eqb_eq in E; symmetry; exact E
      end.
  - intros H. rewrite H. destruct m; reflexivity.
Qed.

Lemma lastPoint_snoc (earlier : list insights.MetricValue) (p : insights.MetricValue) :
  lastPoint (SliceOf (earlier ++ [p])) = Returns p.
Proof.
  unfold lastPoint.
  replace (len (SliceOf (earlier ++ [p])) - 1) with (Z.of_nat (List.length earlier)).
  - apply index_nth. rewrite nth_error_app2 by lia.
    now rewrite Nat.sub_diag.
  - unfold len. simpl. rewrite length_app. simpl. lia.
Qed.

(** C3: on a non-empty sequence of data points the selection reads the last
    point only; the requested aggregation is matched against Average, Total,
    Maximum, Minimum and Count letter case apart; the float field of the
    matched name, or the count converted to a float, is returned when it is
    there; when it is missing, or no mode matches, the selection fails with
    the unsupported-aggregation error that names the request, and extraction
    with the no-value error that names it. *)
Theorem aggregation_reads_last_point
    (aggregationType : string)
    (earlier : list insights.MetricValue) (p : insights.MetricValue) :
  verifyAggregationTypeIsSupported aggregationType (SliceOf (earlier ++ [p])) =
    Returns (match selected aggregationType p with
             | Some v => (Some v, None)
             | None => (None, Some (UnsupportedAggregationType aggregationType))
             end) /\
  (forall m, modeOf aggregationType = Some m <->
             toLower aggregationType = toLower (modeName m)) /\
  (forall ns metric timespan otherSeries otherResults,
      let req := mkRequest metric "s1" "q1" ns "queueServices" aggregationType
                           timespan "" "g1" in
      extractValue req (responseEndingWith earlier p otherSeries otherResults) =
        Returns (match selected aggregationType p with
                 | Some v => (v, None)
                 | None => (float64.minusOne,
                            Some (NoValueReturned ns metric aggregationType))
                 end)).
Proof.
  assert (Hverify :
    verifyAggregationTypeIsSupported aggregationType (SliceOf (earlier ++ [p])) =
    Returns (match selected aggregationType p with
             | Some v => (Some v, None)
             | None => (None, Some (UnsupportedAggregationType aggregationType))
             end)).
  { unfold verifyAggregationTypeIsSupported, selected, modeOf, allModes.
    rewrite lastPoint_snoc. rewrite !EqualFold_eqb. unfold find, modeName.
    destruct (String.eqb (toLower insights.AggregationAverage) (toLower aggregationType)) eqn:E1;
      [apply String.eqb_eq in E1; rewrite <- E1; simpl;
       destruct (insights.Average p); reflexivity|].
    destruct (String.eqb (toLower insights.AggregationTotal) (toLower aggregationType)) eqn:E2;
      [apply String.eqb_eq in E2; rewrite <- E2; simpl;
       destruct (insights.Total p); reflexivity|].
    destruct (String.eqb (toLower insights.AggregationMaximum) (toLower aggregationType)) eqn:E3;
      [apply String.eqb_eq in E3; rewrite <- E3; simpl;
       destruct (insights.Maximum p); reflexivity|].
    destruct (String.eqb (toLower insights.AggregationMinimum) (toLower aggregationType)) eqn:E4;
      [apply String.eqb_eq in E4; rewrite <- E4; simpl;
       destruct (insights.Minimum p); reflexivity|].
    destruct (String.eqb (toLower insights.AggregationCount) (toLower aggregationType)) eqn:E5;
      [simpl; destruct (insights.Count p); reflexivity|].
    reflexivity. }
  split; [exact Hverify|]. split; [intros m; apply modeOf_Some|].
  intros ns metric timespan otherSeries otherResults req.
  assert (Hagg : Aggregation req = aggregationType) by reflexivity.
  unfold extractValue, responseEndingWith. simpl deref. cbv beta iota.
  unfold obind at 1. rewrite len_cons, index_head.
  unfold obind at 1. simpl deref. unfold obind at 1. simpl isNilSlice. cbv iota.
  rewrite index_head.
  unfold obind at 1. simpl deref. unfold obind at 1. simpl isNilSlice. cbv iota.
  rewrite Hagg, Hverify.
  destruct (selected aggregationType p); reflexivity.
Qed.

Lemma aggregation_reads_last_point_witness :
  verifyAggregationTypeIsSupported "COUNT"
    (SliceOf ([Sample.point (Some Sample.f4_4) None] ++ [Sample.point None (Some 7)]))
  = Returns (Some Sample.f7, None) /\
  verifyAggregationTypeIsSupported "Average"
    (SliceOf ([Sample.point (Some Sample.f4_4) None] ++ [Sample.point None (Some 7)]))
  = Returns (None, Some (UnsupportedAggregationType "Average")) /\
  modeOf "AVERAGE" = Some Average /\ modeOf "average" = Some Average.
Proof.
  split; [|split; [|split]].
  - exact (proj1 (aggregation_reads_last_point "COUNT"
                    [Sample.point (Some Sample.f4_4) None] (Sample.point None (Some 7)))).
  - exact (proj1 (aggregation_reads_last_point "Average"
                    [Sample.point (Some Sample.f4_4) None] (Sample.point None (Some 7)))).
  - apply (proj1 (proj2 (aggregation_reads_last_point "AVERAGE" []
                           (Sample.point None None)))). reflexivity.
  - apply (proj1 (proj2 (aggregation_reads_last_point "average" []
                           (Sample.point None None)))). reflexivity.
Defined.

(** ** The structure of the response *)

(** What the guards of [extractValue] catch: a result sequence of length 0,
    a nil time-series slice, a nil data slice. *)
Lemma extractValue_guards (req : azureExternalMetricRequest) :
  let ns := ResourceProviderNamespace req in
  let metric := MetricName req in
  let agg := Aggregation req in
  (forall results, len results = 0 ->
     extractValue req (insights.mkResponse (Some results)) =
       Returns (float64.minusOne, Some (EmptyMetricResponse ns metric agg))) /\
  (forall others,
     extractValue req
       (insights.mkResponse (Some (SliceOf (insights.mkMetric (Some SliceNil) :: others)))) =
       Returns (float64.minusOne, Some (NoTimeseries ns metric agg))) /\
  (forall otherSeries others,
     extractValue req
       (insights.mkResponse
          (Some (SliceOf
             (insights.mkMetric
                (Some (SliceOf (insights.mkTimeSeriesElement (Some SliceNil) :: otherSeries)))
              :: others)))) =
       Returns (float64.minusOne, Some (NoDataPoints ns metric agg))).
Proof.
  intros ns metric agg. split; [|split].
  - intros results H. unfold extractValue. simpl. now rewrite H.
  - intros others. reflexivity.
  - intros otherSeries others. reflexivity.
Qed.

(** C1 (the code at the failing inputs): a first result whose time-series
    sequence is empty but not nil passes the nil test and index 0 is read out
    of range; an empty, non-nil data sequence passes its test and index -1 is
    read; an absent (nil) result, time-series or data sequence is
    dereferenced.  In each case the run panics and none of
    NoTimeseries, NoDataPoints and EmptyMetricResponse is returned. *)
Theorem extractValue_empty_sequence_panics (req : azureExternalMetricRequest) :
  extractValue req
    (insights.mkResponse (Some (SliceOf [insights.mkMetric (Some (SliceOf []))])))
    = Panics (IndexOutOfRange 0 0) /\
  extractValue (Sample.request "Average") (Sample.responseOf (SliceOf []))
    = Panics (IndexOutOfRange (-1) 0) /\
  extractValue req (insights.mkResponse None) = Panics NilDereference /\
  extractValue req (insights.mkResponse (Some (SliceOf [insights.mkMetric None])))
    = Panics NilDereference /\
  extractValue req
    (insights.mkResponse
       (Some (SliceOf [insights.mkMetric
                         (Some (SliceOf [insights.mkTimeSeriesElement None]))])))
    = Panics NilDereference.
Proof. repeat split; reflexivity. Qed.

(** ** Timestamps *)

Lemma below_forall (N : Z) (P : Z -> bool) :
  forallb P (map Z.of_nat (seq 0 (Z.to_nat N))) = true ->
  forall v, 0 <= v < N -> P v = true.
Proof.
  intros H v Hv. rewrite forallb_forall in H. apply H.
  apply in_map_iff. exists (Z.to_nat v). split; [lia|].
  apply in_seq. lia.
Qed.

Lemma twoDigits_inv (s : string) :
  twoDigits s = true ->
  exists a b, s = String a (String b "") /\
              strconv.isDigit a && strconv.isDigit b = true.
Proof.
  destruct s as [|a [|b [|c r]]]; simpl; try discriminate.
  intros H. now exists a, b.
Qed.

Lemma fourDigits_inv (s : string) :
  fourDigits s = true ->
  exists a b c d, s = String a (String b (String c (String d ""))) /\
    strconv.isDigit a && strconv.isDigit b && (strconv.isDigit c && strconv.isDigit d) = true.
Proof.
  destruct s as [|a [|b r]]; simpl; try discriminate.
  intros H. apply andb_true_iff in H as [Hab Hr].
  apply twoDigits_inv in Hr as (c & d & -> & Hcd).
  exists a, b, c, d. split; [reflexivity|]. now rewrite Hab, Hcd.
Qed.

Lemma appendInt_two (v : Z) : 0 <= v < 100 -> twoDigits (time.appendInt v 2) = true.
Proof.
  apply (below_forall 100 (fun v => twoDigits (time.appendInt v 2))).
  vm_compute. reflexivity.
Qed.

Lemma appendInt_four (v : Z) : 0 <= v < 10000 -> fourDigits (time.appendInt v 4) = true.
Proof.
  apply (below_forall 10000 (fun v => fourDigits (time.appendInt v 4))).
  vm_compute. reflexivity.
Qed.

(** Month and day of a civil date are a month and a day; within 24 eras of
    400 years from 0000-03-01 the year has four digits. *)
Lemma civil_bounds (days : Z) :
  0 <= days + 719468 < 24 * 146097 ->
  let '(y, m, d) := time.civil days in
  0 <= y < 10000 /\ 1 <= m <= 12 /\ 1 <= d <= 31.
Proof.
  intros H. unfold time.civil.
  set (z := days + 719468) in *.
  set (era := z / 146097). set (doe := z mod 146097).
  set (yoe := (doe - doe / 1460 + doe / 36524 - doe / 146096) / 365).
  set (doy := doe - (365 * yoe + yoe / 4 - yoe / 100)).
  set (mp := (5 * doy + 2) / 153).
  assert (Hera : 0 <= era <= 23) by (subst era; Z.div_mod_to_equations; lia).
  assert (Hdoe : 0 <= doe < 146097) by (subst doe; apply Z.mod_pos_bound; lia).
  assert (Hy : 0 <= yoe <= 399 /\ 0 <= doy <= 365)
    by (subst doy yoe; Z.div_mod_to_equations; lia).
  assert (Hm : 0 <= mp <= 11 /\ 1 <= doy - (153 * mp + 2) / 5 + 1 <= 31)
    by (subst mp; Z.div_mod_to_equations; lia).
  destruct (mp <? 10) eqn:E1;
    [apply Z.ltb_lt in E1 | apply Z.ltb_ge in E1];
    match goal with
    | |- context [?a <=? 2] => destruct (a <=? 2)
    end; lia.
Qed.

(** Every instant of the calendar range prints in the RFC 3339 shape with
    the zone designator Z. *)
Lemma FormatRFC3339_shape (t : time.Time) :
  inCalendarRange t -> isRFC3339UTC (time.FormatRFC3339 t) = true.
Proof.
  unfold inCalendarRange, time.FormatRFC3339. intros H.
  set (sec := t / time.Second).
  assert (Hsec : - 719468 * 86400 <= sec < (24 * 146097 - 719468) * 86400)
    by (subst sec; unfold time.Second in *; Z.div_mod_to_equations; lia).
  pose proof (civil_bounds (sec / 86400)) as Hc.
  destruct (time.civil (sec / 86400)) as [[y mo] d].
  destruct Hc as (Hy & Hmo & Hd); [Z.div_mod_to_equations; lia|].
  set (sod := sec mod 86400).
  assert (Hsod : 0 <= sod < 86400) by (subst sod; apply Z.mod_pos_bound; lia).
  pose proof (appendInt_four y Hy) as P1.
  pose proof (appendInt_two mo ltac:(lia)) as P2.
  pose proof (appendInt_two d ltac:(lia)) as P3.
  pose proof (appendInt_two (sod / 3600) ltac:(Z.div_mod_to_equations; lia)) as P4.
  pose proof (appendInt_two (sod / 60 mod 60) ltac:(Z.div_mod_to_equations; lia)) as P5.
  pose proof (appendInt_two (sod mod 60) ltac:(Z.div_mod_to_equations; lia)) as P6.
  apply fourDigits_inv in P1 as (y1 & y2 & y3 & y4 & -> & Q1).
  apply twoDigits_inv in P2 as (m1 & m2 & -> & Q2).
  apply twoDigits_inv in P3 as (d1 & d2 & -> & Q3).
  apply twoDigits_inv in P4 as (h1 & h2 & -> & Q4).
  apply twoDigits_inv in P5 as (i1 & i2 & -> & Q5).
  apply twoDigits_inv in P6 as (s1 & s2 & -> & Q6).
  unfold isRFC3339UTC. cbn -[strconv.isDigit].
  rewrite Q1, Q2, Q3, Q4, Q5, Q6. reflexivity.
Qed.

(** ** The query window *)

(** C7: with an empty interval the timespan is the window from five minutes
    before the second clock read to the first clock read, start before the
    slash and end after it; its length differs from five minutes by the time
    between the two reads, so it is [now - 5 min, now] when they agree; both
    timestamps are RFC 3339 timestamps in UTC ending in Z. *)
Theorem default_window (env : Env) (w : World) :
  let now := clock env (clockReads w) in
  let now' := clock env (S (clockReads w)) in
  formatTimeSpan env "" w =
    (Returns (window (now' - 5 * time.Minute) now, None),
     mkWorld (S (S (clockReads w))) (queries w)) /\
  now - (now' - 5 * time.Minute) = 5 * time.Minute - (now' - now) /\
  (now' = now ->
   formatTimeSpan env "" w =
     (Returns (window (now - 5 * time.Minute) now, None),
      mkWorld (S (S (clockReads w))) (queries w))) /\
  (inCalendarRange now -> inCalendarRange (now' - 5 * time.Minute) ->
   isRFC3339UTC (time.FormatRFC3339 (now' - 5 * time.Minute)) = true /\
   isRFC3339UTC (time.FormatRFC3339 now) = true).
Proof.
  intros now now'.
  assert (H : formatTimeSpan env "" w =
              (Returns (window (now' - 5 * time.Minute) now, None),
               mkWorld (S (S (clockReads w))) (queries w))) by reflexivity.
  split; [exact H|]. split; [lia|]. split.
  - intros E. rewrite H, E. reflexivity.
  - intros H1 H2. split; now apply FormatRFC3339_shape.
Qed.

Lemma default_window_witness :
  formatTimeSpan (Sample.envOf (Sample.responseOf SliceNil, None)) "" initial =
    (Returns ("2019-10-31T23:55:00Z/2019-11-01T00:00:00Z", None), mkWorld 2 []) /\
  isRFC3339UTC "2019-10-31T23:55:00Z" = true /\
  isRFC3339UTC "2019-11-01T00:00:00Z" = true.
Proof.
  pose proof (default_window (Sample.envOf (Sample.responseOf SliceNil, None)) initial)
    as (_ & _ & Hsame & Hshape).
  split.
  - apply Hsame. reflexivity.
  - apply Hshape; unfold inCalendarRange; vm_compute; split; congruence.
Defined.

Lemma wrap64_small (z : Z) : inInt64 z -> wrap64 z = z.
Proof.
  unfold inInt64, wrap64. intros H.
  rewrite Z.mod_small; lia.
Qed.

Lemma wrap64_add_l (a b : Z) : wrap64 (wrap64 a + b) = wrap64 (a + b).
Proof.
  unfold wrap64.
  replace ((a + 2 ^ 63) mod 2 ^ 64 - 2 ^ 63 + b + 2 ^ 63)
    with ((a + 2 ^ 63) mod 2 ^ 64 + b) by lia.
  rewrite Zplus_mod_idemp_l. f_equal. f_equal. lia.
Qed.

Lemma wrap64_add_r (a b : Z) : wrap64 (a + wrap64 b) = wrap64 (a + b).
Proof. rewrite Z.add_comm, wrap64_add_l. f_equal. lia. Qed.

(** The duration the code computes is the exact one reduced to 64 bits. *)
Lemma duration_wrap (hours minutes seconds : Z) :
  time.add (time.add (time.mul hours time.Hour) (time.mul minutes time.Minute))
           (time.mul seconds time.Second)
  = wrap64 (hours * time.Hour + minutes * time.Minute + seconds * time.Second).
Proof.
  unfold time.add, time.mul.
  set (a := hours * time.Hour). set (b := minutes * time.Minute).
  set (c := seconds * time.Second).
  rewrite wrap64_add_l, wrap64_add_r.
  replace (wrap64 a + wrap64 b + c) with (wrap64 a + (wrap64 b + c)) by lia.
  rewrite wrap64_add_l.
  replace (a + (wrap64 b + c)) with (wrap64 b + (a + c)) by lia.
  rewrite wrap64_add_l. f_equal. lia.
Qed.

Lemma Split_three_not_empty (timeSpan : string) (a b c : string) (rest : list string) :
  strings.Split timeSpan ":" = a :: b :: c :: rest -> isEmpty timeSpan = false.
Proof. destruct timeSpan; simpl; [discriminate | reflexivity]. Qed.

(** C5, as the code has it: the three components of an H:M:S interval go
    through [strconv.Atoi], which reads an optionally signed decimal integer
    of 64 bits.  If one of them is refused the formatter fails with one
    error that holds the refusal of each refused component, in the order
    hours, minutes, seconds.  If all are read, the window ends at the first
    clock read and starts at the third less the duration, computed in 64-bit
    nanoseconds; when H*3600 + M*60 + S seconds fit, the window is
    [now - (H*3600 + M*60 + S) s, now]. *)
Theorem interval_window
    (env : Env) (w : World) (timeSpan hs ms ss : string) (extra : list string) :
  strings.Split timeSpan ":" = hs :: ms :: ss :: extra ->
  let now := clock env (clockReads w) in
  let now'' := clock env (S (S (clockReads w))) in
  let H := fst (strconv.Atoi hs) in
  let M := fst (strconv.Atoi ms) in
  let S' := fst (strconv.Atoi ss) in
  let herr := snd (strconv.Atoi hs) in
  let merr := snd (strconv.Atoi ms) in
  let serr := snd (strconv.Atoi ss) in
  let total := H * time.Hour + M * time.Minute + S' * time.Second in
  ((herr <> None \/ merr <> None \/ serr <> None) ->
   formatTimeSpan env timeSpan w =
     (Returns ("", Some (TimespanParseError herr merr serr)),
      mkWorld (S (S (clockReads w))) (queries w))) /\
  (herr = None -> merr = None -> serr = None ->
   formatTimeSpan env timeSpan w =
     (Returns (window (now'' + wrap64 (- wrap64 total)) now, None),
      mkWorld (S (S (S (clockReads w)))) (queries w)) /\
   (- 2 ^ 63 < total <= 2 ^ 63 - 1 ->
    total = (H * 3600 + M * 60 + S') * time.Second /\
    formatTimeSpan env timeSpan w =
      (Returns (window (now'' - (H * 3600 + M * 60 + S') * time.Second) now, None),
       mkWorld (S (S (S (clockReads w)))) (queries w)))).
Proof.
  intros Hsplit now now'' H M S' herr merr serr total.
  assert (Hrun : formatTimeSpan env timeSpan w =
    if negb (isNil herr) || negb (isNil merr) || negb (isNil serr) then
      (Returns ("", Some (TimespanParseError herr merr serr)),
       mkWorld (S (S (clockReads w))) (queries w))
    else
      (Returns (window (now'' + wrap64 (- wrap64 total)) now, None),
       mkWorld (S (S (S (clockReads w)))) (queries w))).
  { unfold formatTimeSpan, bind, Now at 1 2.
    rewrite (Split_three_not_empty _ _ _ _ _ Hsplit), Hsplit.
    cbn [negb]. cbv iota.
    rewrite (index_at (hs :: ms :: ss :: extra) 0 hs eq_refl eq_refl),
            (index_at (hs :: ms :: ss :: extra) 1 ms eq_refl eq_refl),
            (index_at (hs :: ms :: ss :: extra) 2 ss eq_refl eq_refl).
    unfold lift. cbv iota beta.
    subst herr merr serr total H M S' now now''.
    destruct (strconv.Atoi hs) as [h he], (strconv.Atoi ms) as [m me],
             (strconv.Atoi ss) as [s se]. cbn [fst snd clockReads queries].
    destruct (negb (isNil he) || negb (isNil me) || negb (isNil se)); [reflexivity|].
    unfold Now, ret. cbn [clockReads queries]. rewrite duration_wrap.
    reflexivity. }
  split.
  - intros Herr. rewrite Hrun.
    destruct herr, merr, serr; simpl; try reflexivity.
    destruct Herr as [E|[E|E]]; congruence.
  - intros E1 E2 E3. rewrite Hrun, E1, E2, E3. simpl.
    split; [reflexivity|]. intros Hfit.
    assert (Ht : total = (H * 3600 + M * 60 + S') * time.Second)
      by (subst total; unfold time.Hour, time.Minute, time.Second; lia).
    split; [exact Ht|].
    rewrite (wrap64_small total) by (unfold inInt64; lia).
    rewrite (wrap64_small (- total)) by (unfold inInt64; lia).
    rewrite <- Ht. replace (now'' + - total) with (now'' - total) by lia.
    reflexivity.
Qed.

Lemma interval_window_witness :
  formatTimeSpan (Sample.envOf (Sample.responseOf SliceNil, None)) "1:30:0" initial =
    (Returns ("2019-10-31T22:30:00Z/2019-11-01T00:00:00Z", None), mkWorld 3 []) /\
  formatTimeSpan (Sample.envOf (Sample.responseOf SliceNil, None)) "x:0:0" initial =
    (Returns ("", Some (TimespanParseError
                          (Some (strconv.mkNumError "Atoi" "x" strconv.ErrSyntax))
                          None None)),
     mkWorld 2 []).
Proof.
  split.
  - destruct (interval_window (Sample.envOf (Sample.responseOf SliceNil, None))
                initial "1:30:0" "1" "30" "0" [] eq_refl) as (_ & Hok).
    destruct (Hok eq_refl eq_refl eq_refl) as (_ & Hfit).
    destruct Hfit as (_ & Hrun); [vm_compute; split; congruence|].
    exact Hrun.
  - destruct (interval_window (Sample.envOf (Sample.responseOf SliceNil, None))
                initial "x:0:0" "x" "0" "0" [] eq_refl) as (Hfail & _).
    apply Hfail. left. vm_compute. discriminate.
Defined.

(** C5 as stated fails on the code: a negative component is not a
    non-negative integer, yet it is read and the formatter does not fail (the
    window then starts after it ends); and components that are all
    non-negative integers can give a window that is not
    [now - (H*3600 + M*60 + S) s, now], the 64-bit duration having wrapped. *)
Lemma interval_negative_or_huge :
  (isNatNumeral "-1" = false /\
   formatTimeSpan (Sample.envOf (Sample.responseOf SliceNil, None)) "-1:0:0" initial =
     (Returns ("2019-11-01T01:00:00Z/2019-11-01T00:00:00Z", None), mkWorld 3 []) /\
   ~ exists e w',
       formatTimeSpan (Sample.envOf (Sample.responseOf SliceNil, None)) "-1:0:0" initial =
         (Returns ("", Some e), w')) /\
  (isNatNumeral "2562048" = true /\ isNatNumeral "0" = true /\
   strconv.Atoi "2562048" = (2562048, None) /\
   formatTimeSpan (Sample.envOf (Sample.responseOf SliceNil, None)) "2562048:0:0" initial =
     (Returns ("2312-02-10T23:34:33Z/2019-11-01T00:00:00Z", None), mkWorld 3 []) /\
   formatTimeSpan (Sample.envOf (Sample.responseOf SliceNil, None)) "2562048:0:0" initial <>
     (Returns (window (Sample.midnight - (2562048 * 3600 + 0 * 60 + 0) * time.Second)
                      Sample.midnight, None),
      mkWorld 3 [])).
Proof.
  assert (E1 : formatTimeSpan (Sample.envOf (Sample.responseOf SliceNil, None))
                 "-1:0:0" initial =
               (Returns ("2019-11-01T01:00:00Z/2019-11-01T00:00:00Z", None), mkWorld 3 []))
    by (vm_compute; reflexivity).
  assert (E2 : formatTimeSpan (Sample.envOf (Sample.responseOf SliceNil, None))
                 "2562048:0:0" initial =
               (Returns ("2312-02-10T23:34:33Z/2019-11-01T00:00:00Z", None), mkWorld 3 []))
    by (vm_compute; reflexivity).
  split; [split; [reflexivity | split; [exact E1|]] |].
  - intros (e & w' & H). rewrite E1 in H. discriminate H.
  - split; [reflexivity|]. split; [reflexivity|]. split; [reflexivity|].
    split; [exact E2|]. rewrite E2. vm_compute. discriminate.
Qed.

(** ** Validation comes before the query *)

Lemma validate_error_message (amr : azureExternalMetricRequest) (e : error) :
  validate amr = Some e -> exists msg, e = ValidationError msg.
Proof.
  unfold validate.
  destruct (isEmpty (MetricName amr)); [intros H; inversion H; eauto|].
  destruct (isEmpty (ResourceGroup amr)); [intros H; inversion H; eauto|].
  destruct (isEmpty (SubscriptionID amr)); [intros H; inversion H; eauto|].
  discriminate.
Qed.

Lemma validate_missing (amr : azureExternalMetricRequest) :
  MetricName amr = "" \/ ResourceGroup amr = "" \/ SubscriptionID amr = "" ->
  exists msg, validate amr = Some (ValidationError msg).
Proof.
  intros H. unfold validate.
  destruct (isEmpty (MetricName amr)) eqn:E1; [eauto|].
  destruct (isEmpty (ResourceGroup amr)) eqn:E2; [eauto|].
  destruct (isEmpty (SubscriptionID amr)) eqn:E3; [eauto|].
  apply isEmpty_false in E1, E2, E3. destruct H as [H|[H|H]]; congruence.
Qed.

Lemma formatTimeSpan_queries (env : Env) (timeSpan : string) (w : World) :
  queries (snd (formatTimeSpan env timeSpan w)) = queries w.
Proof.
  unfold formatTimeSpan, bind, Now, lift, ret. cbn [clockReads queries].
  destruct (isEmpty timeSpan); cbn [negb]; [reflexivity|].
  destruct (index _ 0) as [hs|]; [|reflexivity].
  destruct (strconv.Atoi hs) as [h he].
  destruct (index _ 1) as [ms|]; [|reflexivity].
  destruct (strconv.Atoi ms) as [m me].
  destruct (index _ 2) as [ss|]; [|reflexivity].
  destruct (strconv.Atoi ss) as [s se].
  destruct (negb (isNil he) || negb (isNil me) || negb (isNil se)); reflexivity.
Qed.

(** Building the request sends no query, and the request built holds the
    three required fields of the configuration. *)
Lemma createMetricsRequest_fields (env : Env) (md : azureMonitorMetadata) (w : World) :
  match createMetricsRequest env (Some md) w with
  | (Returns (Some req, None), w') =>
      MetricName req = name md /\ ResourceGroup req = resourceGroupName md /\
      SubscriptionID req = subscriptionID md /\ queries w' = queries w
  | (Returns (None, None), _) => False
  | (_, w') => queries w' = queries w
  end.
Proof.
  unfold createMetricsRequest, bind, lift. simpl deref. cbv iota.
  destruct (decomposeResourceURI (resourceURI md)) as [[[ns ty] nm]|p]; [|reflexivity].
  pose proof (formatTimeSpan_queries env (aggregationInterval md) w) as Hq.
  destruct (formatTimeSpan env (aggregationInterval md) w) as [[[timespan [e|]]|p] w1];
    simpl in Hq |- *; auto.
Qed.

(** C8: a request with an empty metricName, resourceGroup or subscriptionID
    is refused with the validation error before the metrics client is
    called: the world, and with it the list of queries sent, is as it was; a
    run of the whole pipeline on such a configuration sends no query either.
    (A request that passes validation does send one query.) *)
Theorem validation_precedes_query
    (env : Env) (client : insights.MetricsClient)
    (req : azureExternalMetricRequest) (w : World) :
  (MetricName req = "" \/ ResourceGroup req = "" \/ SubscriptionID req = "" ->
   exists msg,
     getAzureMetric env client req w =
       (Returns (float64.minusOne, Some (ValidationError msg)), w) /\
     executeRequest env client (Some req) w =
       (Returns (-1, Some (MetricError (MetricName req) (ValidationError msg))), w)) /\
  (validate req = None ->
   queries (snd (getAzureMetric env client req w)) =
     (queries w ++
      [(client, insights.mkListArgs (metricResourceURI req) (Timespan req)
                  (MetricName req) (Aggregation req) (Filter req))])%list) /\
  (forall md : azureMonitorMetadata,
     name md = "" \/ resourceGroupName md = "" \/ subscriptionID md = "" ->
     queries (snd (GetAzureMetricValue env (Some md) w)) = queries w).
Proof.
  assert (Hrefuse : forall client' req' w',
    MetricName req' = "" \/ ResourceGroup req' = "" \/ SubscriptionID req' = "" ->
    exists msg,
      getAzureMetric env client' req' w' =
        (Returns (float64.minusOne, Some (ValidationError msg)), w') /\
      executeRequest env client' (Some req') w' =
        (Returns (-1, Some (MetricError (MetricName req') (ValidationError msg))), w')).
  { intros client' req' w' H. destruct (validate_missing req' H) as [msg Hv]. exists msg.
    unfold executeRequest, getAzureMetric, bind, lift. simpl deref. cbv iota.
    rewrite Hv. split; reflexivity. }
  split; [apply Hrefuse|]. split.
  - intros Hv. unfold getAzureMetric, bind, List, lift. rewrite Hv. simpl.
    destruct (service env client _) as [res [e|]]; simpl; [reflexivity|].
    destruct (extractValue req res); reflexivity.
  - intros md Hmd. unfold GetAzureMetricValue, bind, lift.
    simpl createMetricsClient. cbv iota.
    pose proof (createMetricsRequest_fields env md w) as Hf.
    destruct (createMetricsRequest env (Some md) w) as [[[[rq|] [e|]]|p] w1];
      simpl negb; cbv iota; simpl; try exact Hf; try contradiction.
    destruct Hf as (H1 & H2 & H3 & Hq).
    destruct (Hrefuse (insights.mkMetricsClient (subscriptionID md) (clientID md)
                         (clientPassword md) (tenantID md)) rq w1) as (msg & _ & Hrun).
    + rewrite H1, H2, H3. exact Hmd.
    + rewrite Hrun. exact Hq.
Qed.

Lemma validation_precedes_query_witness :
  exists msg,
    getAzureMetric (Sample.envOf (Sample.responseOf SliceNil, None))
      (insights.mkMetricsClient "" "id" "secret" "tenant")
      (mkRequest "Length" "" "q1" "Microsoft.Storage" "queueServices" "Average" "" "" "g1")
      initial =
    (Returns (float64.minusOne, Some (ValidationError msg)), initial) /\
    executeRequest (Sample.envOf (Sample.responseOf SliceNil, None))
      (insights.mkMetricsClient "" "id" "secret" "tenant")
      (Some (mkRequest "Length" "" "q1" "Microsoft.Storage" "queueServices" "Average"
               "" "" "g1"))
      initial =
    (Returns (-1, Some (MetricError "Length" (ValidationError msg))), initial).
Proof.
  apply (proj1 (validation_precedes_query
                  (Sample.envOf (Sample.responseOf SliceNil, None))
                  (insights.mkMetricsClient "" "id" "secret" "tenant")
                  (mkRequest "Length" "" "q1" "Microsoft.Storage" "queueServices"
                     "Average" "" "" "g1")
                  initial)).
  right. right. reflexivity.
Defined.

(** ** The sentinel value *)

Lemma executeRequest_error_value
    (env : Env) (client : insights.MetricsClient)
    (request : option azureExternalMetricRequest) (w w' : World) (v : Z) (e : error) :
  executeRequest env client request w = (Returns (v, Some e), w') -> v = -1.
Proof.
  unfold executeRequest, bind, lift.
  destruct request as [req|]; simpl deref; cbv iota; [|discriminate].
  destruct (getAzureMetric env client req w) as [[[x [e'|]]|p] w1];
    unfold ret; intros H; inversion H; reflexivity.
Qed.

(** ** Rounding the value *)

Lemma digits2_size (p : positive) : digits2_pos p = Pos.size p.
Proof. induction p; simpl; congruence. Qed.

Lemma iter_xO_value (p : positive) (k : positive) :
  Zpos (Pos.iter xO p k) = Zpos p * 2 ^ Zpos k.
Proof.
  revert p. induction k using Pos.peano_ind; intros p.
  - simpl. lia.
  - rewrite Pos.iter_succ. rewrite Pos2Z.inj_xO, IHk.
    rewrite Pos2Z.inj_succ, Z.pow_succ_r by lia. lia.
Qed.

Lemma iter_xO_digits (p : positive) (k : positive) :
  digits2_pos (Pos.iter xO p k) = (digits2_pos p + k)%positive.
Proof.
  revert p. induction k using Pos.peano_ind; intros p.
  - simpl. lia.
  - rewrite Pos.iter_succ. simpl. rewrite IHk. lia.
Qed.

Lemma size_bound (p : positive) (k : Z) : 0 <= k -> Zpos p < 2 ^ k -> Zpos (Pos.size p) <= k.
Proof.
  intros Hk H.
  pose proof (Pos.size_le p) as Hle.
  destruct (Z_le_gt_dec (Zpos (Pos.size p)) k) as [|Hgt]; [assumption|exfalso].
  assert (2 ^ (k + 1) <= 2 ^ Zpos (Pos.size p)) by (apply Z.pow_le_mono_r; lia).
  assert (Hc : 2 ^ Zpos (Pos.size p) <= Zpos p~0).
  { rewrite <- Pos2Z.inj_pow. apply Pos2Z.pos_le_pos. exact Hle. }
  rewrite Z.pow_add_r in H0 by lia. lia.
Qed.

Lemma binary_round_aux_exact (s : bool) (mz : positive) (ez : Z) :
  Zpos (digits2_pos mz) = 53 -> -1074 <= ez <= 971 ->
  binary_round_aux 53 1024 s (Zpos mz) ez loc_Exact = S754_finite s mz ez.
Proof.
  intros Hd He.
  assert (Hf : fexp 53 1024 (Zpos (digits2_pos mz) + ez) - ez = 0)
    by (rewrite Hd; unfold fexp, emin; lia).
  unfold binary_round_aux, shr_fexp. unfold Zdigits2 at 1.
  rewrite Hf. unfold shr at 1. cbn [shr_record_of_loc shr_m loc_of_shr_record round_nearest_even].
  unfold Zdigits2. rewrite Hf. unfold shr. cbn [shr_record_of_loc shr_m].
  replace (ez <=? 1024 - 53) with true by (symmetry; apply Z.leb_le; lia).
  reflexivity.
Qed.

Lemma binary_round_small (s : bool) (p : positive) :
  Zpos p < 2 ^ 53 ->
  exists (mz : positive) (k : Z),
    binary_round 53 1024 s p 0 = S754_finite s mz (- k) /\
    0 <= k /\ Zpos mz = Zpos p * 2 ^ k.
Proof.
  intros Hp.
  pose proof (size_bound p 53 ltac:(lia) Hp) as Hd.
  unfold binary_round. rewrite digits2_size.
  set (d := Zpos (Pos.size p)) in *.
  assert (Hf : fexp 53 1024 (d + 0) = d - 53) by (unfold fexp, emin; lia).
  rewrite Hf. unfold shl_align.
  destruct (d - 53 - 0) as [|q|q] eqn:Eq; try lia.
  - exists p, 0. rewrite binary_round_aux_exact.
    + split; [reflexivity|]. split; [lia|]. simpl. lia.
    + rewrite digits2_size. fold d. lia.
    + lia.
  - exists (Pos.iter xO p q), (Zpos q). rewrite binary_round_aux_exact.
    + split; [f_equal; lia|]. split; [lia|]. apply iter_xO_value.
    + rewrite iter_xO_digits, digits2_size. fold d. lia.
    + lia.
Qed.

Lemma trunc_normalize (z : Z) (s : bool) :
  Z.abs z < 2 ^ 53 -> float64.trunc (binary_normalize 53 1024 z 0 s) = Some z.
Proof.
  intros Hz. destruct z as [|p|p]; simpl binary_normalize.
  - reflexivity.
  - destruct (binary_round_small false p Hz) as (mz & k & -> & Hk & Hm).
    unfold float64.trunc. rewrite Hm.
    destruct (0 <=? - k) eqn:E.
    + apply Z.leb_le in E. assert (k = 0) by lia. subst k. simpl. f_equal. lia.
    + rewrite Z.opp_involutive, Z.div_mul by (apply Z.pow_nonzero; lia). reflexivity.
  - destruct (binary_round_small true p Hz) as (mz & k & -> & Hk & Hm).
    unfold float64.trunc. rewrite Hm.
    destruct (0 <=? - k) eqn:E.
    + apply Z.leb_le in E. assert (k = 0) by lia. subst k. simpl. f_equal. lia.
    + rewrite Z.opp_involutive, Z.div_mul by (apply Z.pow_nonzero; lia). reflexivity.
Qed.







(** ** End to end *)

(** The configuration of a storage queue with the default interval, against
    a service whose most recent data point has the average 12.6, gives the
    signal 13 after one query. *)
Example end_to_end :
  GetAzureMetricValue
    (Sample.envOf
       (Sample.responseOf
          (SliceOf [Sample.point (Some Sample.f4_4) None;
                    Sample.point (Some Sample.f12_6) None]), None))
    (Some (Sample.metadata "Microsoft.Storage/queueServices/q1" "" "Average"))
    initial
  = (Returns (13, None),
     mkWorld 2
       [(insights.mkMetricsClient "s1" "id" "secret" "tenant",
         insights.mkListArgs
           "/subscriptions/s1/resourceGroups/g1/providers/Microsoft.Storage/queueServices/q1"
           "2019-10-31T23:55:00Z/2019-11-01T00:00:00Z" "Length" "Average" "")]).
Proof. vm_compute. reflexivity. Qed.

(** With a clock that advances between its reads the default window is
    shorter than five minutes by the time between the first two reads. *)
Example ticking_default_window :
  formatTimeSpan (mkEnv Sample.tickingClock (fun _ _ => (Sample.responseOf SliceNil, None))
                    (fun _ => 0)) "" initial
  = (Returns (window (Sample.midnight + 3000000 - 5 * time.Minute) Sample.midnight, None),
     mkWorld 2 []).
Proof. reflexivity. Qed.

(** * Further properties of the pipeline *)

(** ** How the stages compose *)

Lemma createMetricsRequest_run
    (env : Env) (md : azureMonitorMetadata) (ns ty nm : string) (w : World) :
  decomposeResourceURI (resourceURI md) = Returns (ns, ty, nm) ->
  createMetricsRequest env (Some md) w =
    match formatTimeSpan env (aggregationInterval md) w with
    | (Returns (timespan, None), w1) =>
        (Returns (Some (requestOf md ns ty nm timespan), None), w1)
    | (Returns (_, Some e), w1) => (Returns (None, Some e), w1)
    | (Panics p, w1) => (Panics p, w1)
    end.
Proof.
  intros Hd. unfold createMetricsRequest, bind, lift. simpl deref. cbv iota beta.
  rewrite Hd. cbv iota beta.
  destruct (formatTimeSpan env (aggregationInterval md) w) as [[[timespan [e|]]|p] w1];
    reflexivity.
Qed.

Lemma executeRequest_run
    (env : Env) (client : insights.MetricsClient)
    (req : azureExternalMetricRequest) (w : World) :
  executeRequest env client (Some req) w =
    match validate req with
    | Some e => (Returns (-1, Some (MetricError (MetricName req) e)), w)
    | None =>
        let w' := mkWorld (clockReads w) (queries w ++ [(client, argsOf req)]) in
        match service env client (argsOf req) with
        | (_, Some e) => (Returns (-1, Some (MetricError (MetricName req) e)), w')
        | (res, None) =>
            match extractValue req res with
            | Returns (v, None) =>
                (Returns (float64.toInt32 (int32Unrepresentable env) (float64.Round v),
                          None), w')
            | Returns (_, Some e) =>
                (Returns (-1, Some (MetricError (MetricName req) e)), w')
            | Panics p => (Panics p, w')
            end
        end
    end.
Proof.
  unfold executeRequest, getAzureMetric, bind, lift, List, argsOf. simpl deref. cbv iota.
  destruct (validate req) as [e|]; simpl negb; cbv iota; [reflexivity|].
  destruct (service env client _) as [res [e|]]; simpl negb; cbv iota; [reflexivity|].
  destruct (extractValue req res) as [[v [e|]]|p]; reflexivity.
Qed.

Lemma GetAzureMetricValue_run (env : Env) (md : azureMonitorMetadata) (w : World) :
  GetAzureMetricValue env (Some md) w =
    match createMetricsRequest env (Some md) w with
    | (Returns (_, Some e), w1) => (Returns (-1, Some e), w1)
    | (Returns (requestPtr, None), w1) => executeRequest env (clientOf md) requestPtr w1
    | (Panics p, w1) => (Panics p, w1)
    end.
Proof.
  unfold GetAzureMetricValue, bind, lift. simpl createMetricsClient. cbv iota.
  destruct (createMetricsRequest env (Some md) w) as [[[requestPtr [e|]]|p] w1];
    reflexivity.
Qed.

(** ** The resource URI *)

Lemma metricResourceURI_split (amr : azureExternalMetricRequest) :
  slashFree amr ->
  strings.Split (metricResourceURI amr) "/" =
    [""; "subscriptions"; SubscriptionID amr; "resourceGroups"; ResourceGroup amr;
     "providers"; ResourceProviderNamespace amr; ResourceType amr; ResourceName amr].
Proof.
  intros (Hs & Hg & Hn & Ht & Hm). unfold metricResourceURI.
  change (strings.Split
            ("" ++ String "/" ("subscriptions" ++ String "/" (SubscriptionID amr ++
             String "/" ("resourceGroups" ++ String "/" (ResourceGroup amr ++
             String "/" ("providers" ++ String "/" (ResourceProviderNamespace amr ++
             String "/" (ResourceType amr ++ String "/" (ResourceName amr))))))))) "/" = 
          [""; "subscriptions"; SubscriptionID amr; "resourceGroups"; ResourceGroup amr;
           "providers"; ResourceProviderNamespace amr; ResourceType amr; ResourceName amr]).
  rewrite (Split_segment "" _ "/" eq_refl).
  rewrite (Split_segment "subscriptions" _ "/" eq_refl).
  rewrite (Split_segment _ _ "/" Hs).
  rewrite (Split_segment "resourceGroups" _ "/" eq_refl).
  rewrite (Split_segment _ _ "/" Hg).
  rewrite (Split_segment "providers" _ "/" eq_refl).
  rewrite (Split_segment _ _ "/" Hn).
  rewrite (Split_segment _ _ "/" Ht).
  rewrite (Split_single _ "/" Hm).
  reflexivity.
Qed.

(** X1: when none of subscription, resource group, namespace, type and name
    holds a slash, the resource URI splits at the slashes back into exactly
    these five values between the three fixed words, so two such requests
    with the same URI address the same resource. *)
Theorem metricResourceURI_round_trip (a b : azureExternalMetricRequest) :
  slashFree a -> slashFree b ->
  strings.Split (metricResourceURI a) "/" =
    [""; "subscriptions"; SubscriptionID a; "resourceGroups"; ResourceGroup a;
     "providers"; ResourceProviderNamespace a; ResourceType a; ResourceName a] /\
  (metricResourceURI a = metricResourceURI b ->
   SubscriptionID a = SubscriptionID b /\ ResourceGroup a = ResourceGroup b /\
   ResourceProviderNamespace a = ResourceProviderNamespace b /\
   ResourceType a = ResourceType b /\ ResourceName a = ResourceName b).
Proof.
  intros Ha Hb. split; [now apply metricResourceURI_split|].
  intros E.
  pose proof (metricResourceURI_split a Ha) as Sa.
  pose proof (metricResourceURI_split b Hb) as Sb.
  rewrite E, Sb in Sa. inversion Sa. auto.
Qed.

Lemma metricResourceURI_round_trip_witness :
  strings.Split (metricResourceURI (Sample.request "Average")) "/" =
    [""; "subscriptions"; "s1"; "resourceGroups"; "g1"; "providers";
     "Microsoft.Storage"; "queueServices"; "q1"] /\
  (SubscriptionID (Sample.request "Average") = SubscriptionID (Sample.request "Count") /\
   ResourceGroup (Sample.request "Average") = ResourceGroup (Sample.request "Count") /\
   ResourceProviderNamespace (Sample.request "Average") =
     ResourceProviderNamespace (Sample.request "Count") /\
   ResourceType (Sample.request "Average") = ResourceType (Sample.request "Count") /\
   ResourceName (Sample.request "Average") = ResourceName (Sample.request "Count")).
Proof.
  destruct (metricResourceURI_round_trip (Sample.request "Average")
              (Sample.request "Count")
              ltac:(repeat split; reflexivity) ltac:(repeat split; reflexivity))
    as [Hsplit Hsame].
  split; [exact Hsplit | apply Hsame; reflexivity].
Defined.

(** ** What a run does to the world *)

Lemma formatTimeSpan_world (env : Env) (timeSpan : string) (w : World) :
  snd (formatTimeSpan env timeSpan w) = mkWorld (S (S (clockReads w))) (queries w) \/
  snd (formatTimeSpan env timeSpan w) = mkWorld (S (S (S (clockReads w)))) (queries w).
Proof.
  unfold formatTimeSpan, bind, Now, lift, ret. cbn [clockReads queries].
  destruct (isEmpty timeSpan); cbn [negb]; [now left|].
  destruct (index _ 0) as [hs|]; [|now left].
  destruct (strconv.Atoi hs) as [h he].
  destruct (index _ 1) as [ms|]; [|now left].
  destruct (strconv.Atoi ms) as [m me].
  destruct (index _ 2) as [ss|]; [|now left].
  destruct (strconv.Atoi ss) as [s se].
  destruct (negb (isNil he) || negb (isNil me) || negb (isNil se)); [now left | now right].
Qed.

Lemma decompose_inv (uri ns ty nm : string) :
  decomposeResourceURI uri = Returns (ns, ty, nm) ->
  exists rest, strings.Split uri "/" = ns :: ty :: nm :: rest.
Proof.
  unfold decomposeResourceURI.
  destruct (strings.Split uri "/") as [|a [|b [|c rest]]]; try discriminate.
  rewrite (index_at (a :: b :: c :: rest) 0 a eq_refl eq_refl),
          (index_at (a :: b :: c :: rest) 1 b eq_refl eq_refl),
          (index_at (a :: b :: c :: rest) 2 c eq_refl eq_refl).
  simpl. intros H. inversion H. now exists rest.
Qed.

Lemma validate_present (amr : azureExternalMetricRequest) :
  MetricName amr <> "" -> ResourceGroup amr <> "" -> SubscriptionID amr <> "" ->
  validate amr = None.
Proof.
  intros H1 H2 H3. apply isEmpty_false in H1, H2, H3.
  unfold validate. now rewrite H1, H2, H3.
Qed.

Lemma executeRequest_queries
    (env : Env) (client : insights.MetricsClient)
    (req : azureExternalMetricRequest) (w : World) :
  validate req = None ->
  snd (executeRequest env client (Some req) w) =
    mkWorld (clockReads w) (queries w ++ [(client, argsOf req)]).
Proof.
  intros Hv. rewrite executeRequest_run, Hv. cbv zeta.
  destruct (service env client (argsOf req)) as [res [e|]]; [reflexivity|].
  destruct (extractValue req res) as [[v [e|]]|p]; reflexivity.
Qed.

(** X2: for a configuration whose identifier decomposes, whose interval is
    accepted and whose metric name, resource group and subscription are not
    empty, a run sends exactly one query, through the client made of the
    configuration's subscription and credentials: the resource URI is built
    from the subscription, the resource group and the three segments, and
    timespan, metric name, aggregation and filter are passed as they are
    (the aggregation in the letter case it was given).  For an identifier of
    exactly three segments the URI ends with the identifier itself. *)
Theorem pipeline_query_arguments
    (env : Env) (md : azureMonitorMetadata) (w w1 : World) (ns ty nm timespan : string) :
  decomposeResourceURI (resourceURI md) = Returns (ns, ty, nm) ->
  formatTimeSpan env (aggregationInterval md) w = (Returns (timespan, None), w1) ->
  name md <> "" -> resourceGroupName md <> "" -> subscriptionID md <> "" ->
  queries (snd (GetAzureMetricValue env (Some md) w)) =
    (queries w ++
     [(clientOf md,
       insights.mkListArgs
         ("/subscriptions/" ++ subscriptionID md ++
          "/resourceGroups/" ++ resourceGroupName md ++
          "/providers/" ++ ns ++ "/" ++ ty ++ "/" ++ nm)
         timespan (name md) (aggregationType md) (filter md))])%list /\
  (strings.Split (resourceURI md) "/" = [ns; ty; nm] ->
   ns ++ "/" ++ ty ++ "/" ++ nm = resourceURI md).
Proof.
  intros Hd Hf H1 H2 H3. split.
  - rewrite GetAzureMetricValue_run, (createMetricsRequest_run env md ns ty nm w Hd), Hf.
    rewrite executeRequest_queries by (apply validate_present; assumption).
    pose proof (formatTimeSpan_queries env (aggregationInterval md) w) as Hq.
    rewrite Hf in Hq. simpl in Hq. simpl queries. rewrite Hq. reflexivity.
  - intros Hs. pose proof (Join_Split (resourceURI md) "/") as Hj.
    rewrite Hs in Hj. exact Hj.
Qed.

Lemma pipeline_query_arguments_witness :
  queries (snd (GetAzureMetricValue
                  (Sample.envOf (Sample.responseOf SliceNil, None))
                  (Some (Sample.metadata "Microsoft.Storage/queueServices/q1" "" "average"))
                  initial)) =
    [(insights.mkMetricsClient "s1" "id" "secret" "tenant",
      insights.mkListArgs
        "/subscriptions/s1/resourceGroups/g1/providers/Microsoft.Storage/queueServices/q1"
        "2019-10-31T23:55:00Z/2019-11-01T00:00:00Z" "Length" "average" "")] /\
  "Microsoft.Storage" ++ "/" ++ "queueServices" ++ "/" ++ "q1" =
    "Microsoft.Storage/queueServices/q1".
Proof.
  destruct (pipeline_query_arguments
              (Sample.envOf (Sample.responseOf SliceNil, None))
              (Sample.metadata "Microsoft.Storage/queueServices/q1" "" "average")
              initial (mkWorld 2 [])
              "Microsoft.Storage" "queueServices" "q1"
              "2019-10-31T23:55:00Z/2019-11-01T00:00:00Z"
              eq_refl eq_refl
              ltac:(discriminate) ltac:(discriminate) ltac:(discriminate))
    as [Hq Huri].
  split; [exact Hq | apply Huri; reflexivity].
Defined.

(** X3: a run of [GetAzureMetricValue], whatever its input and outcome,
    sends no query or exactly one, and it sends one only for a request that
    was built and passed validation; it reads the clock at most three
    times. *)
Theorem at_most_one_query
    (env : Env) (metricMetadata : option azureMonitorMetadata) (w : World) :
  let w' := snd (GetAzureMetricValue env metricMetadata w) in
  (queries w' = queries w \/
   exists md req,
     metricMetadata = Some md /\ validate req = None /\
     queries w' = (queries w ++ [(clientOf md, argsOf req)])%list) /\
  (clockReads w <= clockReads w' <= clockReads w + 3)%nat.
Proof.
  destruct metricMetadata as [md|]; [|simpl; split; [now left | lia]].
  cbv zeta. rewrite GetAzureMetricValue_run.
  destruct (decomposeResourceURI (resourceURI md)) as [[[ns ty] nm]|p] eqn:Hd.
  - rewrite (createMetricsRequest_run env md ns ty nm w Hd).
    pose proof (formatTimeSpan_world env (aggregationInterval md) w) as Hw.
    destruct (formatTimeSpan env (aggregationInterval md) w) as [[[timespan [e|]]|p] w1];
      simpl snd in Hw |- *.
    + split; [left|]; destruct Hw as [-> | ->]; simpl; try reflexivity; lia.
    + destruct (validate (requestOf md ns ty nm timespan)) as [e|] eqn:Hv.
      * rewrite executeRequest_run, Hv. simpl snd.
        split; [left|]; destruct Hw as [-> | ->]; simpl; try reflexivity; lia.
      * rewrite (executeRequest_queries _ _ _ _ Hv).
        split.
        -- right. exists md, (requestOf md ns ty nm timespan).
           split; [reflexivity|]. split; [exact Hv|].
           destruct Hw as [-> | ->]; reflexivity.
        -- destruct Hw as [-> | ->]; simpl; lia.
    + split; [left|]; destruct Hw as [-> | ->]; simpl; try reflexivity; lia.
  - unfold createMetricsRequest, bind, lift. simpl deref. cbv iota beta.
    rewrite Hd. simpl. split; [now left | lia].
Qed.

(** X4: request construction returns either a request and no error, or no
    request and an error, never both and never neither, so the request that
    [executeRequest] dereferences is never nil; the request holds the
    configuration's fields and the first three segments of its identifier,
    none of which holds a slash; and the only error of construction is the
    one of the interval. *)
Theorem request_or_error
    (env : Env) (md : azureMonitorMetadata) (w w' : World)
    (requestPtr : option azureExternalMetricRequest) (err : option error) :
  createMetricsRequest env (Some md) w = (Returns (requestPtr, err), w') ->
  (exists ns ty nm timespan rest,
      requestPtr = Some (requestOf md ns ty nm timespan) /\ err = None /\
      strings.Split (resourceURI md) "/" = ns :: ty :: nm :: rest /\
      hasByte "/" ns = false /\ hasByte "/" ty = false /\ hasByte "/" nm = false) \/
  (exists herr merr serr,
      requestPtr = None /\ err = Some (TimespanParseError herr merr serr)).
Proof.
  destruct (decomposeResourceURI (resourceURI md)) as [[[ns ty] nm]|p] eqn:Hd.
  - rewrite (createMetricsRequest_run env md ns ty nm w Hd).
    destruct (formatTimeSpan env (aggregationInterval md) w)
      as [[[timespan [e|]]|p] w1] eqn:Hf; intros H; inversion H; subst.
    + right. revert Hf. unfold formatTimeSpan, bind, Now, lift, ret.
      destruct (isEmpty (aggregationInterval md)); cbn [negb]; [discriminate|].
      destruct (index _ 0) as [hs|]; [|discriminate].
      destruct (strconv.Atoi hs) as [h he].
      destruct (index _ 1) as [ms|]; [|discriminate].
      destruct (strconv.Atoi ms) as [m me].
      destruct (index _ 2) as [ss|]; [|discriminate].
      destruct (strconv.Atoi ss) as [s se].
      destruct (negb (isNil he) || negb (isNil me) || negb (isNil se));
        intros Hf; inversion Hf. eauto.
    + left. destruct (decompose_inv _ _ _ _ Hd) as [rest Hs].
      pose proof (Split_segments_clean (resourceURI md) "/") as Hc.
      rewrite Hs in Hc.
      apply Forall_cons_iff in Hc as [Hns Hc].
      apply Forall_cons_iff in Hc as [Hty Hc].
      apply Forall_cons_iff in Hc as [Hnm _].
      exists ns, ty, nm, timespan, rest. auto 10.
  - unfold createMetricsRequest, bind, lift. simpl deref. cbv iota beta.
    rewrite Hd. discriminate.
Qed.

Lemma request_or_error_witness :
  (exists ns ty nm timespan rest,
      Some (requestOf (Sample.metadata "Microsoft.Storage/queueServices/q1/x" "" "Average")
              "Microsoft.Storage" "queueServices" "q1"
              "2019-10-31T23:55:00Z/2019-11-01T00:00:00Z") =
        Some (requestOf (Sample.metadata "Microsoft.Storage/queueServices/q1/x" "" "Average")
                ns ty nm timespan) /\ @None error = None /\
      strings.Split "Microsoft.Storage/queueServices/q1/x" "/" = ns :: ty :: nm :: rest /\
      hasByte "/" ns = false /\ hasByte "/" ty = false /\ hasByte "/" nm = false) \/
  (exists herr merr serr,
      Some (requestOf (Sample.metadata "Microsoft.Storage/queueServices/q1/x" "" "Average")
              "Microsoft.Storage" "queueServices" "q1"
              "2019-10-31T23:55:00Z/2019-11-01T00:00:00Z") = None /\
      @None error = Some (TimespanParseError herr merr serr)).
Proof.
  apply (request_or_error (Sample.envOf (Sample.responseOf SliceNil, None))
           (Sample.metadata "Microsoft.Storage/queueServices/q1/x" "" "Average")
           initial (mkWorld 2 [])).
  reflexivity.
Defined.

(** ** The interval *)

(** What [formatTimeSpan] does with an interval of three components or
    more. *)
Lemma formatTimeSpan_three
    (env : Env) (w : World) (timeSpan hs ms ss : string) (extra : list string) :
  strings.Split timeSpan ":" = hs :: ms :: ss :: extra ->
  formatTimeSpan env timeSpan w =
    let '(hours, herr) := strconv.Atoi hs in
    let '(minutes, merr) := strconv.Atoi ms in
    let '(seconds, serr) := strconv.Atoi ss in
    if negb (isNil herr) || negb (isNil merr) || negb (isNil serr) then
      (Returns ("", Some (TimespanParseError herr merr serr)),
       mkWorld (S (S (clockReads w))) (queries w))
    else
      (Returns
         (window
            (clock env (S (S (clockReads w))) +
             wrap64 (- wrap64 (hours * time.Hour + minutes * time.Minute +
                               seconds * time.Second)))
            (clock env (clockReads w)), None),
       mkWorld (S (S (S (clockReads w)))) (queries w)).
Proof.
  intros Hsplit. unfold formatTimeSpan, bind, Now at 1 2.
  rewrite (Split_three_not_empty _ _ _ _ _ Hsplit), Hsplit.
  cbn [negb]. cbv iota.
  rewrite (index_at (hs :: ms :: ss :: extra) 0 hs eq_refl eq_refl),
          (index_at (hs :: ms :: ss :: extra) 1 ms eq_refl eq_refl),
          (index_at (hs :: ms :: ss :: extra) 2 ss eq_refl eq_refl).
  unfold lift. cbv iota beta.
  destruct (strconv.Atoi hs) as [h he], (strconv.Atoi ms) as [m me],
           (strconv.Atoi ss) as [s se]. cbn [clockReads queries].
  destruct (negb (isNil he) || negb (isNil me) || negb (isNil se)); [reflexivity|].
  unfold Now, ret. cbn [clockReads queries]. rewrite duration_wrap.
  reflexivity.
Qed.

(** X5: a non-empty interval with fewer than three components separated by
    colons (such as "90" or "1:30") is not refused with an error: after the
    two clock reads for the default window the index expression for the
    missing component is out of range and the run panics, in
    [formatTimeSpan] and so in the whole pipeline, before any query. *)
Theorem short_interval_panics (env : Env) (timeSpan : string) (w : World) :
  timeSpan <> "" ->
  (List.length (strings.Split timeSpan ":") < 3)%nat ->
  let n := Z.of_nat (List.length (strings.Split timeSpan ":")) in
  formatTimeSpan env timeSpan w =
    (Panics (IndexOutOfRange n n), mkWorld (S (S (clockReads w))) (queries w)) /\
  forall md ns ty nm,
    aggregationInterval md = timeSpan ->
    decomposeResourceURI (resourceURI md) = Returns (ns, ty, nm) ->
    GetAzureMetricValue env (Some md) w =
      (Panics (IndexOutOfRange n n), mkWorld (S (S (clockReads w))) (queries w)).
Proof.
  intros Hne Hlen n.
  assert (Hrun : formatTimeSpan env timeSpan w =
            (Panics (IndexOutOfRange n n), mkWorld (S (S (clockReads w))) (queries w))).
  { apply isEmpty_false in Hne. subst n.
    unfold formatTimeSpan, bind, Now at 1 2. rewrite Hne. cbn [negb]. cbv iota.
    pose proof (Split_not_nil timeSpan ":") as Hnil.
    destruct (strings.Split timeSpan ":") as [|a [|b [|c rest]]];
      simpl in Hlen; try lia; [congruence| |].
    - rewrite (index_at [a] 0 a eq_refl eq_refl). unfold lift. cbv iota beta.
      destruct (strconv.Atoi a) as [h he]. reflexivity.
    - rewrite (index_at [a; b] 0 a eq_refl eq_refl),
              (index_at [a; b] 1 b eq_refl eq_refl).
      unfold lift. cbv iota beta.
      destruct (strconv.Atoi a) as [h he], (strconv.Atoi b) as [m me]. reflexivity. }
  split; [exact Hrun|].
  intros md ns ty nm Hi Hd.
  rewrite GetAzureMetricValue_run, (createMetricsRequest_run env md ns ty nm w Hd), Hi, Hrun.
  reflexivity.
Qed.

Lemma short_interval_panics_witness :
  formatTimeSpan (Sample.envOf (Sample.responseOf SliceNil, None)) "1:30" initial =
    (Panics (IndexOutOfRange 2 2), mkWorld 2 []) /\
  GetAzureMetricValue (Sample.envOf (Sample.responseOf SliceNil, None))
    (Some (Sample.metadata "Microsoft.Storage/queueServices/q1" "1:30" "Average")) initial =
    (Panics (IndexOutOfRange 2 2), mkWorld 2 []).
Proof.
  destruct (short_interval_panics (Sample.envOf (Sample.responseOf SliceNil, None))
              "1:30" initial ltac:(discriminate) ltac:(vm_compute; lia))
    as [Hfmt Hrun].
  split; [exact Hfmt|].
  apply (Hrun (Sample.metadata "Microsoft.Storage/queueServices/q1" "1:30" "Average")
              "Microsoft.Storage" "queueServices" "q1"); reflexivity.
Defined.

(** X6: of an interval only the first three components are read: two
    intervals that agree on them give the same result, whatever follows the
    third colon. *)
Theorem interval_extra_components_ignored
    (env : Env) (w : World) (timeSpan timeSpan' hs ms ss : string)
    (extra extra' : list string) :
  strings.Split timeSpan ":" = hs :: ms :: ss :: extra ->
  strings.Split timeSpan' ":" = hs :: ms :: ss :: extra' ->
  formatTimeSpan env timeSpan w = formatTimeSpan env timeSpan' w.
Proof.
  intros H H'.
  rewrite (formatTimeSpan_three env w timeSpan hs ms ss extra H).
  rewrite (formatTimeSpan_three env w timeSpan' hs ms ss extra' H').
  reflexivity.
Qed.

Lemma interval_extra_components_ignored_witness :
  formatTimeSpan (Sample.envOf (Sample.responseOf SliceNil, None)) "1:30:0:59:x" initial =
  formatTimeSpan (Sample.envOf (Sample.responseOf SliceNil, None)) "1:30:0" initial.
Proof.
  apply (interval_extra_components_ignored
           (Sample.envOf (Sample.responseOf SliceNil, None)) initial
           "1:30:0:59:x" "1:30:0" "1" "30" "0" ["59"; "x"] [] eq_refl eq_refl).
Defined.

(** ** Selection and extraction *)

Lemma verify_last_point
    (aggregationType : string)
    (earlier : list insights.MetricValue) (p : insights.MetricValue) :
  verifyAggregationTypeIsSupported aggregationType (SliceOf (earlier ++ [p])) =
    Returns (match selected aggregationType p with
             | Some v => (Some v, None)
             | None => (None, Some (UnsupportedAggregationType aggregationType))
             end).
Proof.
  unfold verifyAggregationTypeIsSupported, selected, modeOf, allModes.
  rewrite lastPoint_snoc. rewrite !EqualFold_eqb. unfold find, modeName.
  destruct (String.eqb (toLower insights.AggregationAverage) (toLower aggregationType)) eqn:E1;
    [apply String.eqb_eq in E1; rewrite <- E1; simpl;
     destruct (insights.Average p); reflexivity|].
  destruct (String.eqb (toLower insights.AggregationTotal) (toLower aggregationType)) eqn:E2;
    [apply String.eqb_eq in E2; rewrite <- E2; simpl;
     destruct (insights.Total p); reflexivity|].
  destruct (String.eqb (toLower insights.AggregationMaximum) (toLower aggregationType)) eqn:E3;
    [apply String.eqb_eq in E3; rewrite <- E3; simpl;
     destruct (insights.Maximum p); reflexivity|].
  destruct (String.eqb (toLower insights.AggregationMinimum) (toLower aggregationType)) eqn:E4;
    [apply String.eqb_eq in E4; rewrite <- E4; simpl;
     destruct (insights.Minimum p); reflexivity|].
  destruct (String.eqb (toLower insights.AggregationCount) (toLower aggregationType)) eqn:E5;
    [simpl; destruct (insights.Count p); reflexivity|].
  reflexivity.
Qed.

Lemma slice_cases {A} (s : slice A) :
  len s = 0 \/ exists earlier p, s = SliceOf (earlier ++ [p]).
Proof.
  destruct s as [|[|a l]]; [now left | now left | right].
  destruct (@exists_last A (a :: l) ltac:(discriminate)) as (earlier & p & E).
  exists earlier, p. now rewrite E.
Qed.

(** On a sequence without points the selection reads no point when the
    aggregation names no mode, and reads index -1 when it names one. *)
Lemma verify_no_points (aggregationType : string) (data : slice insights.MetricValue) :
  len data = 0 ->
  verifyAggregationTypeIsSupported aggregationType data =
    match modeOf aggregationType with
    | None => Returns (None, Some (UnsupportedAggregationType aggregationType))
    | Some _ => Panics (IndexOutOfRange (-1) 0)
    end.
Proof.
  intros Hlen.
  assert (Hlast : lastPoint data = Panics (IndexOutOfRange (-1) 0)).
  { unfold lastPoint. rewrite Hlen. rewrite index_negative by lia. now rewrite Hlen. }
  unfold verifyAggregationTypeIsSupported, modeOf, allModes.
  rewrite Hlast. rewrite !EqualFold_eqb. unfold find, modeName.
  destruct (String.eqb (toLower insights.AggregationAverage) (toLower aggregationType));
    [reflexivity|].
  destruct (String.eqb (toLower insights.AggregationTotal) (toLower aggregationType));
    [reflexivity|].
  destruct (String.eqb (toLower insights.AggregationMaximum) (toLower aggregationType));
    [reflexivity|].
  destruct (String.eqb (toLower insights.AggregationMinimum) (toLower aggregationType));
    [reflexivity|].
  destruct (String.eqb (toLower insights.AggregationCount) (toLower aggregationType));
    reflexivity.
Qed.

(** X7: when the selection returns, it returns a value and no error, or no
    value and the unsupported-aggregation error for the requested
    aggregation: never both, never neither, so the value that [extractValue]
    dereferences after a selection without error is never nil. *)
Theorem selection_value_or_error
    (aggregationType : string) (data : slice insights.MetricValue)
    (valuePtr : option float64.t) (err : option error) :
  verifyAggregationTypeIsSupported aggregationType data = Returns (valuePtr, err) ->
  (exists v, valuePtr = Some v /\ err = None) \/
  (valuePtr = None /\ err = Some (UnsupportedAggregationType aggregationType)).
Proof.
  destruct (slice_cases data) as [Hlen | (earlier & p & ->)].
  - rewrite (verify_no_points _ _ Hlen).
    destruct (modeOf aggregationType); intros H; inversion H. now right.
  - rewrite verify_last_point.
    destruct (selected aggregationType p) as [v|]; intros H; inversion H;
      [left; now exists v | now right].
Qed.

Lemma selection_value_or_error_witness :
  (exists v, Some Sample.f7 = Some v /\ @None error = None) \/
  (Some Sample.f7 = None /\ @None error = Some (UnsupportedAggregationType "count")).
Proof.
  apply (selection_value_or_error "count" (SliceOf [Sample.point None (Some 7)])
           (Some Sample.f7) None).
  reflexivity.
Defined.

(** X8: on a data sequence that is there but holds no point, the outcome
    depends on the aggregation requested: one that names none of the five
    modes gets the no-value error, one that names a mode (in any letter
    case) makes the selection read index -1 and the run panic. *)
Theorem no_points_outcome
    (req : azureExternalMetricRequest)
    (otherSeries : list insights.TimeSeriesElement) (otherResults : list insights.Metric) :
  let res := insights.mkResponse
               (Some (SliceOf
                  (insights.mkMetric
                     (Some (SliceOf
                        (insights.mkTimeSeriesElement (Some (SliceOf [])) :: otherSeries)))
                   :: otherResults))) in
  (modeOf (Aggregation req) = None ->
   extractValue req res =
     Returns (float64.minusOne,
              Some (NoValueReturned (ResourceProviderNamespace req) (MetricName req)
                      (Aggregation req)))) /\
  (modeOf (Aggregation req) <> None ->
   extractValue req res = Panics (IndexOutOfRange (-1) 0)).
Proof.
  intros res.
  assert (H : extractValue req res =
    '(valuePtr, err) <~ verifyAggregationTypeIsSupported (Aggregation req) (SliceOf []) ;;
    if negb (isNil err) then
      Returns (float64.minusOne,
               Some (NoValueReturned (ResourceProviderNamespace req) (MetricName req)
                       (Aggregation req)))
    else v <~ deref valuePtr ;; Returns (v, None)) by reflexivity.
  rewrite H, (verify_no_points _ (SliceOf []) eq_refl).
  split; intros Hm; destruct (modeOf (Aggregation req)); try reflexivity; congruence.
Qed.

Lemma no_points_outcome_witness :
  extractValue (Sample.request "Sum") (Sample.responseOf (SliceOf [])) =
    Returns (float64.minusOne, Some (NoValueReturned "Microsoft.Storage" "Length" "Sum")) /\
  extractValue (Sample.request "MAXIMUM") (Sample.responseOf (SliceOf [])) =
    Panics (IndexOutOfRange (-1) 0).
Proof.
  split.
  - apply (proj1 (no_points_outcome (Sample.request "Sum") [] [])). reflexivity.
  - apply (proj2 (no_points_outcome (Sample.request "MAXIMUM") [] [])). discriminate.
Defined.

(** X9: whatever the response, when [extractValue] returns without error
    the value is the one the requested aggregation selects in the last data
    point of the first series of the first result, and the response has such
    a point; when it returns an error the value beside it is -1 and the
    error is one of the four extraction errors, each carrying the namespace,
    metric name and aggregation of the request (the selection's own
    unsupported-aggregation error is never passed on). *)
Theorem extraction_sound
    (req : azureExternalMetricRequest) (res : insights.Response)
    (v : float64.t) (err : option error) :
  extractValue req res = Returns (v, err) ->
  (err = None /\
   exists earlier p otherSeries otherResults,
     res = responseEndingWith earlier p otherSeries otherResults /\
     selected (Aggregation req) p = Some v) \/
  (exists e, err = Some e /\ v = float64.minusOne /\ extractionError req e).
Proof.
  unfold extractionError.
  destruct res as [[[|[|[series] otherResults]]|]];
    try (cbn -[verifyAggregationTypeIsSupported]; intros H; inversion H; subst;
         right; eexists; split; [reflexivity|]; split; [reflexivity|]; tauto);
    try discriminate.
  destruct series as [[|[|[data] otherSeries]]|];
    try (cbn -[verifyAggregationTypeIsSupported]; intros H; inversion H; subst;
         right; eexists; split; [reflexivity|]; split; [reflexivity|]; tauto);
    try discriminate.
  destruct data as [[|points]|];
    try (cbn -[verifyAggregationTypeIsSupported]; intros H; inversion H; subst;
         right; eexists; split; [reflexivity|]; split; [reflexivity|]; tauto);
    try discriminate.
  destruct (slice_cases (SliceOf points)) as [Hlen | (earlier & p & E)].
  - cbn -[verifyAggregationTypeIsSupported]. rewrite (verify_no_points _ _ Hlen).
    destruct (modeOf (Aggregation req)); [discriminate|].
    cbn. intros H; inversion H; subst.
    right; eexists; split; [reflexivity|]; split; [reflexivity|]; tauto.
  - inversion E; subst points.
    cbn -[verifyAggregationTypeIsSupported]. rewrite verify_last_point.
    destruct (selected (Aggregation req) p) as [x|] eqn:Hsel;
      cbn; intros H; inversion H; subst.
    + left. split; [reflexivity|].
      exists earlier, p, otherSeries, otherResults. split; [reflexivity | exact Hsel].
    + right; eexists; split; [reflexivity|]; split; [reflexivity|]; tauto.
Qed.

Lemma extraction_sound_witness :
  (@None error = None /\
   exists earlier p otherSeries otherResults,
     Sample.responseOf (SliceOf [Sample.point (Some Sample.f4_4) None;
                                 Sample.point (Some Sample.f12_6) None]) =
       responseEndingWith earlier p otherSeries otherResults /\
     selected (Aggregation (Sample.request "Average")) p = Some Sample.f12_6) \/
  (exists e, @None error = Some e /\ Sample.f12_6 = float64.minusOne /\
             extractionError (Sample.request "Average") e).
Proof.
  apply (extraction_sound (Sample.request "Average")
           (Sample.responseOf (SliceOf [Sample.point (Some Sample.f4_4) None;
                                        Sample.point (Some Sample.f12_6) None]))
           Sample.f12_6 None).
  reflexivity.
Defined.

(** ** The errors of a run *)

Lemma formatTimeSpan_error
    (env : Env) (timeSpan : string) (w w1 : World) (out : string) (e : error) :
  formatTimeSpan env timeSpan w = (Returns (out, Some e), w1) ->
  exists herr merr serr,
    e = TimespanParseError herr merr serr /\ queries w1 = queries w.
Proof.
  unfold formatTimeSpan, bind, Now, lift, ret.
  destruct (isEmpty timeSpan); cbn [negb]; [discriminate|].
  destruct (index _ 0) as [hs|]; [|discriminate].
  destruct (strconv.Atoi hs) as [h he].
  destruct (index _ 1) as [ms|]; [|discriminate].
  destruct (strconv.Atoi ms) as [m me].
  destruct (index _ 2) as [ss|]; [|discriminate].
  destruct (strconv.Atoi ss) as [s se].
  destruct (negb (isNil he) || negb (isNil me) || negb (isNil se));
    intros H; inversion H. eauto.
Qed.

Lemma extractValue_error_kind
    (req : azureExternalMetricRequest) (res : insights.Response)
    (v : float64.t) (e : error) :
  extractValue req res = Returns (v, Some e) -> extractionError req e.
Proof.
  unfold extractionError.
  destruct res as [[[|[|[series] otherResults]]|]];
    try (cbn -[verifyAggregationTypeIsSupported]; intros H; inversion H; tauto);
    try discriminate.
  destruct series as [[|[|[data] otherSeries]]|];
    try (cbn -[verifyAggregationTypeIsSupported]; intros H; inversion H; tauto);
    try discriminate.
  destruct data as [[|points]|];
    try (cbn -[verifyAggregationTypeIsSupported]; intros H; inversion H; tauto);
    try discriminate.
  cbn -[verifyAggregationTypeIsSupported].
  destruct (verifyAggregationTypeIsSupported (Aggregation req) (SliceOf points))
    as [[valuePtr [e'|]]|p]; cbn; [| |discriminate].
  - intros H; inversion H; tauto.
  - destruct valuePtr; cbn; discriminate.
Qed.

(** X10: the errors a run of [GetAzureMetricValue] can return.  An error of
    the interval comes back as it is, and no query was sent.  Every other
    error is wrapped with the metric name of the configuration, and what it
    wraps is the validation error (no query was sent), or the error the
    metrics client returned for the one query sent, or one of the four
    extraction errors for the answer to that query. *)
Theorem pipeline_errors
    (env : Env) (md : azureMonitorMetadata) (w w' : World) (v : Z) (e : error) :
  GetAzureMetricValue env (Some md) w = (Returns (v, Some e), w') ->
  (exists herr merr serr,
      e = TimespanParseError herr merr serr /\ queries w' = queries w) \/
  (exists req cause,
      e = MetricError (name md) cause /\ MetricName req = name md /\
      ((exists msg, cause = ValidationError msg /\ queries w' = queries w) \/
       (snd (service env (clientOf md) (argsOf req)) = Some cause /\
        queries w' = (queries w ++ [(clientOf md, argsOf req)])%list) \/
       (snd (service env (clientOf md) (argsOf req)) = None /\
        extractionError req cause /\
        queries w' = (queries w ++ [(clientOf md, argsOf req)])%list))).
Proof.
  rewrite GetAzureMetricValue_run.
  destruct (decomposeResourceURI (resourceURI md)) as [[[ns ty] nm]|p] eqn:Hd.
  - rewrite (createMetricsRequest_run env md ns ty nm w Hd).
    pose proof (formatTimeSpan_queries env (aggregationInterval md) w) as Hq.
    destruct (formatTimeSpan env (aggregationInterval md) w)
      as [[[timespan [e'|]]|p] w1] eqn:Hf; simpl in Hq.
    + intros H. inversion H; subst. left.
      apply (formatTimeSpan_error _ _ _ _ _ _ Hf).
    + rewrite executeRequest_run. set (req := requestOf md ns ty nm timespan).
      intros H. right. exists req.
      destruct (validate req) as [ve|] eqn:Hv.
      * inversion H; subst. exists ve. split; [reflexivity|]. split; [reflexivity|].
        left. destruct (validate_error_message _ _ Hv) as [msg ->]. eauto.
      * cbv zeta in H.
        destruct (service env (clientOf md) (argsOf req)) as [res [se|]] eqn:Hs.
        -- inversion H; subst. exists se. split; [reflexivity|]. split; [reflexivity|].
           right. left. simpl. now rewrite Hq.
        -- destruct (extractValue req res) as [[x [xe|]]|p] eqn:Hx; inversion H; subst.
           exists xe. split; [reflexivity|]. split; [reflexivity|].
           right. right. simpl. rewrite Hq.
           split; [reflexivity|]. split; [|reflexivity].
           exact (extractValue_error_kind _ _ _ _ Hx).
    + discriminate.
  - unfold createMetricsRequest, bind, lift. simpl deref. cbv iota beta.
    rewrite Hd. discriminate.
Qed.

Lemma pipeline_errors_witness :
  (exists herr merr serr,
      MetricError "Length" (QueryError "throttled") = TimespanParseError herr merr serr /\
      queries (mkWorld 2
        [(clientOf (Sample.metadata "Microsoft.Storage/queueServices/q1" "" "Average"),
          argsOf (Sample.request "Average"))]) = queries initial) \/
  (exists req cause,
      MetricError "Length" (QueryError "throttled") =
        MetricError (name (Sample.metadata "Microsoft.Storage/queueServices/q1" "" "Average"))
          cause /\
      MetricName req =
        name (Sample.metadata "Microsoft.Storage/queueServices/q1" "" "Average") /\
      ((exists msg, cause = ValidationError msg /\
          queries (mkWorld 2
            [(clientOf (Sample.metadata "Microsoft.Storage/queueServices/q1" "" "Average"),
              argsOf (Sample.request "Average"))]) = queries initial) \/
       (snd (service (Sample.envOf (Sample.responseOf SliceNil, Some (QueryError "throttled")))
               (clientOf (Sample.metadata "Microsoft.Storage/queueServices/q1" "" "Average"))
               (argsOf req)) = Some cause /\
        queries (mkWorld 2
          [(clientOf (Sample.metadata "Microsoft.Storage/queueServices/q1" "" "Average"),
            argsOf (Sample.request "Average"))]) =
          (queries initial ++
           [(clientOf (Sample.metadata "Microsoft.Storage/queueServices/q1" "" "Average"),
             argsOf req)])%list) \/
       (snd (service (Sample.envOf (Sample.responseOf SliceNil, Some (QueryError "throttled")))
               (clientOf (Sample.metadata "Microsoft.Storage/queueServices/q1" "" "Average"))
               (argsOf req)) = None /\
        extractionError req cause /\
        queries (mkWorld 2
          [(clientOf (Sample.metadata "Microsoft.Storage/queueServices/q1" "" "Average"),
            argsOf (Sample.request "Average"))]) =
          (queries initial ++
           [(clientOf (Sample.metadata "Microsoft.Storage/queueServices/q1" "" "Average"),
             argsOf req)])%list))).
Proof.
  apply (pipeline_errors
           (Sample.envOf (Sample.responseOf SliceNil, Some (QueryError "throttled")))
           (Sample.metadata "Microsoft.Storage/queueServices/q1" "" "Average")
           initial
           (mkWorld 2
              [(clientOf (Sample.metadata "Microsoft.Storage/queueServices/q1" "" "Average"),
                argsOf (Sample.request "Average"))])
           (-1) (MetricError "Length" (QueryError "throttled"))).
  vm_compute. reflexivity.
Defined.

(** ** Counts *)

(** Converting an integer below 2^53 to a float, rounding it and truncating
    it gives the integer back. *)
Lemma round_ofInt (c : Z) :
  Z.abs c < 2 ^ 53 -> float64.trunc (float64.Round (float64.ofInt c)) = Some c.
Proof.
  intros Hc. unfold float64.ofInt.
  assert (Hgen : forall (s : bool) (p : positive),
             Zpos p < 2 ^ 53 ->
             float64.trunc (float64.Round (binary_round 53 1024 s p 0)) =
               Some (if s then Zneg p else Zpos p)).
  { intros s p Hp.
    destruct (binary_round_small s p Hp) as (mz & k & -> & Hk & Hm).
    unfold float64.Round.
    destruct (0 <=? - k) eqn:E.
    - apply Z.leb_le in E. assert (k = 0) by lia. subst k.
      unfold float64.trunc. simpl (0 <=? - 0). cbv iota.
      rewrite Hm. destruct s; f_equal; simpl; lia.
    - rewrite Z.opp_involutive, Hm.
      assert (Hq : 0 < 2 ^ k) by (apply Z.pow_pos_nonneg; lia).
      rewrite Z.div_mul, Z.mod_mul by lia.
      replace (2 ^ k <=? 2 * 0) with false by (symmetry; apply Z.leb_gt; lia).
      rewrite trunc_normalize by (destruct s; simpl; lia).
      destruct s; reflexivity. }
  destruct c as [|p|p]; simpl binary_normalize.
  - reflexivity.
  - apply (Hgen false p Hc).
  - apply (Hgen true p Hc).
Qed.

(** X11: when the Count aggregation is requested (in any letter case) and
    the last data point of the answer holds a count that is an int32, the
    signal is that count itself: the conversion to a float, the rounding and
    the narrowing give it back unchanged. *)
Theorem count_signal_exact
    (env : Env) (client : insights.MetricsClient) (req : azureExternalMetricRequest)
    (w : World) (earlier : list insights.MetricValue) (p : insights.MetricValue)
    (otherSeries : list insights.TimeSeriesElement) (otherResults : list insights.Metric)
    (c : Z) :
  validate req = None ->
  toLower (Aggregation req) = "count" ->
  insights.Count p = Some c ->
  inInt32 c = true ->
  service env client (argsOf req) =
    (responseEndingWith earlier p otherSeries otherResults, None) ->
  executeRequest env client (Some req) w =
    (Returns (c, None),
     mkWorld (clockReads w) (queries w ++ [(client, argsOf req)])).
Proof.
  intros Hv Hagg Hcount Hc Hs.
  assert (Hsel : selected (Aggregation req) p = Some (float64.ofInt c)).
  { unfold selected. rewrite (proj2 (modeOf_Some (Aggregation req) Count) Hagg).
    simpl. now rewrite Hcount. }
  assert (Hx : extractValue req (responseEndingWith earlier p otherSeries otherResults) =
               Returns (float64.ofInt c, None)).
  { unfold extractValue, responseEndingWith. simpl deref. cbv beta iota.
    unfold obind at 1. rewrite len_cons, index_head.
    unfold obind at 1. simpl deref. unfold obind at 1. simpl isNilSlice. cbv iota.
    rewrite index_head.
    unfold obind at 1. simpl deref. unfold obind at 1. simpl isNilSlice. cbv iota.
    rewrite verify_last_point, Hsel. reflexivity. }
  rewrite executeRequest_run, Hv. cbv zeta. rewrite Hs, Hx.
  unfold float64.toInt32. rewrite round_ofInt.
  - now rewrite Hc.
  - unfold inInt32 in Hc. apply andb_true_iff in Hc as [H1 H2].
    apply Z.leb_le in H1, H2. lia.
Qed.

Lemma count_signal_exact_witness :
  executeRequest
    (Sample.envOf (Sample.responseOf (SliceOf ([] ++ [Sample.point None (Some 7)])), None))
    (insights.mkMetricsClient "s1" "id" "secret" "tenant")
    (Some (Sample.request "COUNT")) initial =
  (Returns (7, None),
   mkWorld 0 [(insights.mkMetricsClient "s1" "id" "secret" "tenant",
               argsOf (Sample.request "COUNT"))]).
Proof.
  apply (count_signal_exact
           (Sample.envOf (Sample.responseOf (SliceOf ([] ++ [Sample.point None (Some 7)])),
                          None))
           (insights.mkMetricsClient "s1" "id" "secret" "tenant")
           (Sample.request "COUNT") initial [] (Sample.point None (Some 7)) [] [] 7);
    reflexivity.
Defined.

(** X12: an aggregation that names none of the five modes is not refused
    before the query: the request passes validation, the query is sent with
    the aggregation as given, and whatever points the first series of the
    answer holds (none included) the run ends with the no-value error,
    wrapped with the metric name, beside -1. *)
Theorem unknown_aggregation_is_queried
    (env : Env) (client : insights.MetricsClient) (req : azureExternalMetricRequest)
    (w : World) (points : list insights.MetricValue)
    (otherSeries : list insights.TimeSeriesElement) (otherResults : list insights.Metric) :
  MetricName req <> "" -> ResourceGroup req <> "" -> SubscriptionID req <> "" ->
  modeOf (Aggregation req) = None ->
  service env client (argsOf req) =
    (insights.mkResponse
       (Some (SliceOf
          (insights.mkMetric
             (Some (SliceOf
                (insights.mkTimeSeriesElement (Some (SliceOf points)) :: otherSeries)))
           :: otherResults))), None) ->
  executeRequest env client (Some req) w =
    (Returns (-1, Some (MetricError (MetricName req)
                          (NoValueReturned (ResourceProviderNamespace req)
                             (MetricName req) (Aggregation req)))),
     mkWorld (clockReads w) (queries w ++ [(client, argsOf req)])) /\
  insights.aggregation (argsOf req) = Aggregation req.
Proof.
  intros H1 H2 H3 Hm Hs. split; [|reflexivity].
  rewrite executeRequest_run, (validate_present req H1 H2 H3). cbv zeta. rewrite Hs.
  assert (Hv : verifyAggregationTypeIsSupported (Aggregation req) (SliceOf points) =
               Returns (None, Some (UnsupportedAggregationType (Aggregation req)))).
  { destruct (slice_cases (SliceOf points)) as [Hlen | (earlier & p & E)].
    - now rewrite (verify_no_points _ _ Hlen), Hm.
    - rewrite E, verify_last_point. unfold selected. now rewrite Hm. }
  assert (Hx : extractValue req
                 (insights.mkResponse
                    (Some (SliceOf
                       (insights.mkMetric
                          (Some (SliceOf
                             (insights.mkTimeSeriesElement (Some (SliceOf points))
                              :: otherSeries)))
                        :: otherResults)))) =
               Returns (float64.minusOne,
                        Some (NoValueReturned (ResourceProviderNamespace req)
                                (MetricName req) (Aggregation req)))).
  { unfold extractValue. simpl deref. cbv beta iota.
    unfold obind at 1. rewrite len_cons, index_head.
    unfold obind at 1. simpl deref. unfold obind at 1. simpl isNilSlice. cbv iota.
    rewrite index_head.
    unfold obind at 1. simpl deref. unfold obind at 1. simpl isNilSlice. cbv iota.
    rewrite Hv. reflexivity. }
  rewrite Hx. reflexivity.
Qed.

Lemma unknown_aggregation_is_queried_witness :
  executeRequest
    (Sample.envOf (Sample.responseOf (SliceOf [Sample.point (Some Sample.f4_4) None]), None))
    (insights.mkMetricsClient "s1" "id" "secret" "tenant")
    (Some (Sample.request "Sum")) initial =
  (Returns (-1, Some (MetricError "Length"
                        (NoValueReturned "Microsoft.Storage" "Length" "Sum"))),
   mkWorld 0 [(insights.mkMetricsClient "s1" "id" "secret" "tenant",
               argsOf (Sample.request "Sum"))]).
Proof.
  apply (proj1 (unknown_aggregation_is_queried
           (Sample.envOf (Sample.responseOf (SliceOf [Sample.point (Some Sample.f4_4) None]),
                          None))
           (insights.mkMetricsClient "s1" "id" "secret" "tenant")
           (Sample.request "Sum") initial [Sample.point (Some Sample.f4_4) None] [] []
           ltac:(discriminate) ltac:(discriminate) ltac:(discriminate)
           eq_refl eq_refl)).
Defined.

(** ** The timespan string *)

Lemma isDigit_not_slash (c : ascii) :
  strconv.isDigit c = true -> Ascii.eqb c "/" = false.
Proof.
  destruct c as [[] [] [] [] [] [] [] []]; vm_compute; intros H;
    try reflexivity; discriminate H.
Qed.

Lemma FormatRFC3339_no_slash (t : time.Time) :
  inCalendarRange t -> hasByte "/" (time.FormatRFC3339 t) = false.
Proof.
  unfold inCalendarRange, time.FormatRFC3339. intros H.
  set (sec := t / time.Second).
  assert (Hsec : - 719468 * 86400 <= sec < (24 * 146097 - 719468) * 86400)
    by (subst sec; unfold time.Second in *; Z.div_mod_to_equations; lia).
  pose proof (civil_bounds (sec / 86400)) as Hc.
  destruct (time.civil (sec / 86400)) as [[y mo] d].
  destruct Hc as (Hy & Hmo & Hd); [Z.div_mod_to_equations; lia|].
  set (sod := sec mod 86400).
  assert (Hsod : 0 <= sod < 86400) by (subst sod; apply Z.mod_pos_bound; lia).
  pose proof (appendInt_four y Hy) as P1.
  pose proof (appendInt_two mo ltac:(lia)) as P2.
  pose proof (appendInt_two d ltac:(lia)) as P3.
  pose proof (appendInt_two (sod / 3600) ltac:(Z.div_mod_to_equations; lia)) as P4.
  pose proof (appendInt_two (sod / 60 mod 60) ltac:(Z.div_mod_to_equations; lia)) as P5.
  pose proof (appendInt_two (sod mod 60) ltac:(Z.div_mod_to_equations; lia)) as P6.
  apply fourDigits_inv in P1 as (y1 & y2 & y3 & y4 & -> & Q1).
  apply twoDigits_inv in P2 as (m1 & m2 & -> & Q2).
  apply twoDigits_inv in P3 as (d1 & d2 & -> & Q3).
  apply twoDigits_inv in P4 as (h1 & h2 & -> & Q4).
  apply twoDigits_inv in P5 as (i1 & i2 & -> & Q5).
  apply twoDigits_inv in P6 as (s1 & s2 & -> & Q6).
  repeat match goal with
         | Q : _ && _ = true |- _ => apply andb_true_iff in Q as [? ?]
         end.
  cbn -[Ascii.eqb].
  repeat match goal with
         | Q : strconv.isDigit ?c = true |- _ =>
             rewrite (isDigit_not_slash c Q); clear Q
         end.
  reflexivity.
Qed.

Lemma window_split (start finish : time.Time) :
  inCalendarRange start -> inCalendarRange finish ->
  strings.Split (window start finish) "/" =
    [time.FormatRFC3339 start; time.FormatRFC3339 finish].
Proof.
  intros Hs Hf. unfold window.
  change (time.FormatRFC3339 start ++ "/" ++ time.FormatRFC3339 finish)
    with (time.FormatRFC3339 start ++ String "/" (time.FormatRFC3339 finish)).
  rewrite (Split_segment _ _ "/" (FormatRFC3339_no_slash _ Hs)).
  now rewrite (Split_single _ "/" (FormatRFC3339_no_slash _ Hf)).
Qed.

(** X13: whatever the interval, a timespan that [formatTimeSpan] returns
    without error is the window from some start instant to the instant of
    the first clock read; when both lie in the calendar range the string
    holds exactly one slash: split at the slash it gives the two timestamps,
    start first, each in the RFC 3339 shape ending in Z. *)
Theorem timespan_two_timestamps
    (env : Env) (timeSpan : string) (w w1 : World) (out : string) :
  formatTimeSpan env timeSpan w = (Returns (out, None), w1) ->
  let now := clock env (clockReads w) in
  (exists start, out = window start now) /\
  (forall start,
     out = window start now -> inCalendarRange start -> inCalendarRange now ->
     strings.Split out "/" = [time.FormatRFC3339 start; time.FormatRFC3339 now] /\
     isRFC3339UTC (time.FormatRFC3339 start) = true /\
     isRFC3339UTC (time.FormatRFC3339 now) = true).
Proof.
  intros Hrun now. split.
  - revert Hrun. unfold formatTimeSpan, bind, Now, lift, ret. cbn [clockReads queries].
    destruct (isEmpty timeSpan); cbn [negb].
    + intros H; inversion H. eexists. reflexivity.
    + destruct (index _ 0) as [hs|]; [|discriminate].
      destruct (strconv.Atoi hs) as [h he].
      destruct (index _ 1) as [ms|]; [|discriminate].
      destruct (strconv.Atoi ms) as [m me].
      destruct (index _ 2) as [ss|]; [|discriminate].
      destruct (strconv.Atoi ss) as [s se].
      destruct (negb (isNil he) || negb (isNil me) || negb (isNil se));
        intros H; inversion H. eexists. reflexivity.
  - intros start -> Hs Hf. split; [now apply window_split|].
    split; now apply FormatRFC3339_shape.
Qed.

Lemma timespan_two_timestamps_witness :
  strings.Split "2019-10-31T22:30:00Z/2019-11-01T00:00:00Z" "/" =
    ["2019-10-31T22:30:00Z"; "2019-11-01T00:00:00Z"] /\
  isRFC3339UTC "2019-10-31T22:30:00Z" = true /\
  isRFC3339UTC "2019-11-01T00:00:00Z" = true.
Proof.
  apply (proj2 (timespan_two_timestamps
                  (Sample.envOf (Sample.responseOf SliceNil, None))
                  "1:30:0" initial (mkWorld 3 [])
                  "2019-10-31T22:30:00Z/2019-11-01T00:00:00Z"
                  ltac:(vm_compute; reflexivity))
           (Sample.midnight - 90 * time.Minute)).
  - vm_compute. reflexivity.
  - unfold inCalendarRange. vm_compute. split; congruence.
  - unfold inCalendarRange. vm_compute. split; congruence.
Defined.

(** ** The identifier comes first *)

(** X14: for every configuration whose resource identifier has fewer than
    three segments separated by slashes, a run panics at the index
    expression for the first missing segment, whatever the interval and the
    other fields: the identifier is read before the clock and before the
    interval, so the world is left as it was and no error value is
    returned. *)
Theorem short_identifier_panics (env : Env) (md : azureMonitorMetadata) (w : World) :
  (List.length (strings.Split (resourceURI md) "/") < 3)%nat ->
  let n := Z.of_nat (List.length (strings.Split (resourceURI md) "/")) in
  decomposeResourceURI (resourceURI md) = Panics (IndexOutOfRange n n) /\
  createMetricsRequest env (Some md) w = (Panics (IndexOutOfRange n n), w) /\
  GetAzureMetricValue env (Some md) w = (Panics (IndexOutOfRange n n), w).
Proof.
  intros Hlen n.
  assert (Hd : decomposeResourceURI (resourceURI md) = Panics (IndexOutOfRange n n)).
  { subst n. unfold decomposeResourceURI.
    pose proof (Split_not_nil (resourceURI md) "/") as Hnil.
    destruct (strings.Split (resourceURI md) "/") as [|a [|b [|c rest]]];
      simpl in Hlen; try lia; [congruence | reflexivity | reflexivity]. }
  assert (Hc : createMetricsRequest env (Some md) w = (Panics (IndexOutOfRange n n), w)).
  { unfold createMetricsRequest, bind, lift. simpl deref. cbv iota beta.
    rewrite Hd. reflexivity. }
  split; [exact Hd|]. split; [exact Hc|].
  rewrite GetAzureMetricValue_run, Hc. reflexivity.
Qed.

Lemma short_identifier_panics_witness :
  decomposeResourceURI "queueServices" = Panics (IndexOutOfRange 1 1) /\
  createMetricsRequest (Sample.envOf (Sample.responseOf SliceNil, None))
    (Some (Sample.metadata "queueServices" "x:0:0" "Average")) initial =
    (Panics (IndexOutOfRange 1 1), initial) /\
  GetAzureMetricValue (Sample.envOf (Sample.responseOf SliceNil, None))
    (Some (Sample.metadata "queueServices" "x:0:0" "Average")) initial =
    (Panics (IndexOutOfRange 1 1), initial).
Proof.
  apply (short_identifier_panics (Sample.envOf (Sample.responseOf SliceNil, None))
           (Sample.metadata "queueServices" "x:0:0" "Average") initial).
  vm_compute. lia.
Defined.

(** ** Failure and the sentinel *)

(** An answer that fails extraction makes [extractValue] return -1 and the
    error. *)
Lemma extractValue_failure
    (req : azureExternalMetricRequest) (res : insights.Response) (e : error) :
  extractionFailure req res e ->
  extractValue req res = Returns (float64.minusOne, Some e).
Proof.
  intros H. destruct H as [results Hlen | otherResults | otherSeries otherResults
                          | earlier p otherSeries otherResults Hsel
                          | otherSeries otherResults Hmode].
  - apply (proj1 (extractValue_guards req)). exact Hlen.
  - apply (proj1 (proj2 (extractValue_guards req))).
  - apply (proj2 (proj2 (extractValue_guards req))).
  - unfold extractValue, responseEndingWith. simpl deref. cbv beta iota.
    unfold obind at 1. rewrite len_cons, index_head.
    unfold obind at 1. simpl deref. unfold obind at 1. simpl isNilSlice. cbv iota.
    rewrite index_head.
    unfold obind at 1. simpl deref. unfold obind at 1. simpl isNilSlice. cbv iota.
    rewrite verify_last_point, Hsel. reflexivity.
  - unfold extractValue. simpl deref. cbv beta iota.
    unfold obind at 1. rewrite len_cons, index_head.
    unfold obind at 1. simpl deref. unfold obind at 1. simpl isNilSlice. cbv iota.
    rewrite index_head.
    unfold obind at 1. simpl deref. unfold obind at 1. simpl isNilSlice. cbv iota.
    rewrite (verify_no_points _ (SliceOf []) eq_refl), Hmode. reflexivity.
Qed.

(** C9: whenever a stage of the pipeline fails, [GetAzureMetricValue]
    returns -1 beside the error.  For a configuration whose identifier
    decomposes: an interval with a refused component makes the run return -1
    and the interval error; an empty required field makes it return -1 and
    the validation error, wrapped with the metric name; an error from the
    metrics client makes it return -1 and that error, wrapped; an answer that
    fails extraction makes it return -1 and the extraction error, wrapped.
    Conversely every error returned, by whatever stage, has -1 beside it.
    And -1 is also what a run without error returns for a metric whose value
    is -1, so the number alone does not tell failure from that reading. *)
Theorem failure_returns_minus_one :
  (forall (env : Env) (metricMetadata : option azureMonitorMetadata)
          (w w' : World) (v : Z) (e : error),
      GetAzureMetricValue env metricMetadata w = (Returns (v, Some e), w') -> v = -1) /\
  (forall (env : Env) (md : azureMonitorMetadata) (w : World) (ns ty nm : string),
      decomposeResourceURI (resourceURI md) = Returns (ns, ty, nm) ->
      (forall (hs ms ss : string) (extra : list string),
          strings.Split (aggregationInterval md) ":" = hs :: ms :: ss :: extra ->
          snd (strconv.Atoi hs) <> None \/ snd (strconv.Atoi ms) <> None \/
            snd (strconv.Atoi ss) <> None ->
          GetAzureMetricValue env (Some md) w =
            (Returns (-1, Some (TimespanParseError (snd (strconv.Atoi hs))
                                  (snd (strconv.Atoi ms)) (snd (strconv.Atoi ss)))),
             mkWorld (S (S (clockReads w))) (queries w))) /\
      (forall (timespan : string) (w1 : World),
          formatTimeSpan env (aggregationInterval md) w = (Returns (timespan, None), w1) ->
          let req := requestOf md ns ty nm timespan in
          let sent := mkWorld (clockReads w1)
                              (queries w1 ++ [(clientOf md, argsOf req)]) in
          (name md = "" \/ resourceGroupName md = "" \/ subscriptionID md = "" ->
           exists msg,
             validate req = Some (ValidationError msg) /\
             GetAzureMetricValue env (Some md) w =
               (Returns (-1, Some (MetricError (name md) (ValidationError msg))), w1)) /\
          (validate req = None ->
           (forall (res : insights.Response) (e : error),
               service env (clientOf md) (argsOf req) = (res, Some e) ->
               GetAzureMetricValue env (Some md) w =
                 (Returns (-1, Some (MetricError (name md) e)), sent)) /\
           (forall (res : insights.Response) (e : error),
               service env (clientOf md) (argsOf req) = (res, None) ->
               extractionFailure req res e ->
               GetAzureMetricValue env (Some md) w =
                 (Returns (-1, Some (MetricError (name md) e)), sent))))) /\
  (exists (env env' : Env) (md : azureMonitorMetadata) (e : error) (w w' : World),
      GetAzureMetricValue env (Some md) initial = (Returns (-1, None), w) /\
      GetAzureMetricValue env' (Some md) initial = (Returns (-1, Some e), w')).
Proof.
  split; [|split].
  - intros env md w w' v e. unfold GetAzureMetricValue, bind, lift.
    destruct (createMetricsClient md) as [client|p]; [|discriminate].
    destruct (createMetricsRequest env md w) as [[[requestPtr [e'|]]|p] w1];
      simpl negb; cbv iota.
    + unfold ret. intros H. inversion H. reflexivity.
    + apply executeRequest_error_value.
    + discriminate.
  - intros env md w ns ty nm Hd. split.
    + intros hs ms ss extra Hsplit Herr.
      rewrite GetAzureMetricValue_run, (createMetricsRequest_run env md ns ty nm w Hd).
      rewrite (formatTimeSpan_three env w _ hs ms ss extra Hsplit).
      destruct (strconv.Atoi hs) as [h he], (strconv.Atoi ms) as [m me],
               (strconv.Atoi ss) as [s se]. simpl snd in *.
      destruct he, me, se; simpl; try reflexivity.
      destruct Herr as [E|[E|E]]; congruence.
    + intros timespan w1 Hf req sent.
      assert (Hrun : GetAzureMetricValue env (Some md) w =
                     executeRequest env (clientOf md) (Some req) w1).
      { rewrite GetAzureMetricValue_run, (createMetricsRequest_run env md ns ty nm w Hd), Hf.
        reflexivity. }
      split.
      * intros Hmissing.
        destruct (validate_missing req Hmissing) as [msg Hv].
        exists msg. split; [exact Hv|].
        rewrite Hrun, executeRequest_run, Hv. reflexivity.
      * intros Hv. split.
        -- intros res e Hs. rewrite Hrun, executeRequest_run, Hv. cbv zeta.
           rewrite Hs. reflexivity.
        -- intros res e Hs Hfail. rewrite Hrun, executeRequest_run, Hv. cbv zeta.
           rewrite Hs, (extractValue_failure req res e Hfail). reflexivity.
  - exists (Sample.envOf
              (Sample.responseOf
                 (SliceOf [Sample.point (Some float64.minusOne) None]), None)),
           (Sample.envOf (Sample.responseOf SliceNil, Some (QueryError "throttled"))),
           (Sample.metadata "Microsoft.Storage/queueServices/q1" "" "Average").
    eexists. eexists. eexists. split; vm_compute; reflexivity.
Qed.

Lemma failure_returns_minus_one_witness :
  GetAzureMetricValue (Sample.envOf (Sample.responseOf SliceNil, None))
    (Some (Sample.metadata "Microsoft.Storage/queueServices/q1" "x:0:0" "Average"))
    initial =
  (Returns (-1, Some (TimespanParseError
                        (Some (strconv.mkNumError "Atoi" "x" strconv.ErrSyntax))
                        None None)),
   mkWorld 2 []) /\
  (exists msg,
     validate (requestOf
                 (mkMetadata "" "s1" "g1" "Microsoft.Storage/queueServices/q1" "Average"
                    "" "" "id" "secret" "tenant")
                 "Microsoft.Storage" "queueServices" "q1"
                 "2019-10-31T23:55:00Z/2019-11-01T00:00:00Z") =
       Some (ValidationError msg) /\
     GetAzureMetricValue (Sample.envOf (Sample.responseOf SliceNil, None))
       (Some (mkMetadata "" "s1" "g1" "Microsoft.Storage/queueServices/q1" "Average"
                "" "" "id" "secret" "tenant"))
       initial =
     (Returns (-1, Some (MetricError "" (ValidationError msg))), mkWorld 2 [])) /\
  GetAzureMetricValue
    (Sample.envOf (Sample.responseOf SliceNil, Some (QueryError "throttled")))
    (Some (Sample.metadata "Microsoft.Storage/queueServices/q1" "" "Average"))
    initial =
  (Returns (-1, Some (MetricError "Length" (QueryError "throttled"))),
   mkWorld 2
     [(clientOf (Sample.metadata "Microsoft.Storage/queueServices/q1" "" "Average"),
       argsOf (Sample.request "Average"))]) /\
  GetAzureMetricValue
    (Sample.envOf (insights.mkResponse (Some (SliceOf [])), None))
    (Some (Sample.metadata "Microsoft.Storage/queueServices/q1" "" "Average"))
    initial =
  (Returns (-1, Some (MetricError "Length"
                        (EmptyMetricResponse "Microsoft.Storage" "Length" "Average"))),
   mkWorld 2
     [(clientOf (Sample.metadata "Microsoft.Storage/queueServices/q1" "" "Average"),
       argsOf (Sample.request "Average"))]) /\
  -1 = -1.
Proof.
  destruct failure_returns_minus_one as (Hvalue & Hstages & _).
  assert (Hinterval :
    GetAzureMetricValue (Sample.envOf (Sample.responseOf SliceNil, None))
      (Some (Sample.metadata "Microsoft.Storage/queueServices/q1" "x:0:0" "Average"))
      initial =
    (Returns (-1, Some (TimespanParseError
                          (Some (strconv.mkNumError "Atoi" "x" strconv.ErrSyntax))
                          None None)),
     mkWorld 2 [])).
  { apply (proj1 (Hstages (Sample.envOf (Sample.responseOf SliceNil, None))
                    (Sample.metadata "Microsoft.Storage/queueServices/q1" "x:0:0" "Average")
                    initial "Microsoft.Storage" "queueServices" "q1" eq_refl)
             "x" "0" "0" [] eq_refl).
    left. vm_compute. discriminate. }
  split; [exact Hinterval|]. split; [|split; [|split]].
  - apply (proj1 (proj2 (Hstages (Sample.envOf (Sample.responseOf SliceNil, None))
                           (mkMetadata "" "s1" "g1" "Microsoft.Storage/queueServices/q1"
                              "Average" "" "" "id" "secret" "tenant")
                           initial "Microsoft.Storage" "queueServices" "q1" eq_refl)
                    "2019-10-31T23:55:00Z/2019-11-01T00:00:00Z" (mkWorld 2 []) eq_refl)).
    left. reflexivity.
  - apply (proj1 (proj2 (proj2 (Hstages
             (Sample.envOf (Sample.responseOf SliceNil, Some (QueryError "throttled")))
             (Sample.metadata "Microsoft.Storage/queueServices/q1" "" "Average")
             initial "Microsoft.Storage" "queueServices" "q1" eq_refl)
           "2019-10-31T23:55:00Z/2019-11-01T00:00:00Z" (mkWorld 2 []) eq_refl) eq_refl)
           (Sample.responseOf SliceNil)).
    reflexivity.
  - apply (proj2 (proj2 (proj2 (Hstages
             (Sample.envOf (insights.mkResponse (Some (SliceOf [])), None))
             (Sample.metadata "Microsoft.Storage/queueServices/q1" "" "Average")
             initial "Microsoft.Storage" "queueServices" "q1" eq_refl)
           "2019-10-31T23:55:00Z/2019-11-01T00:00:00Z" (mkWorld 2 []) eq_refl) eq_refl)
           (insights.mkResponse (Some (SliceOf [])))).
    + reflexivity.
    + apply (FailsEmpty (Sample.request "Average") (SliceOf [])). reflexivity.
  - exact (Hvalue _ _ _ _ _ _ Hinterval).
Defined.
